(** * System resource monitor: the sampler and the report assembly

    A shallow embedding of [monitor.py] (class [SystemMonitor]) and the
    properties of its per-tick collection step, its collection loop and the
    tables of its report.

    Numbers.  Python integers (the cumulative byte counters of psutil) are
    [Z].  Python floats are modelled by the exact rationals [Q]: the values
    this development reasons about are differences of clock readings, byte
    deltas divided by [1024 * 1024] (a power of two, so the float division is
    exact for every delta below 2^53) and comparisons with [0], which
    rounding does not change.  Equality of such values is [Qeq] ([==]).

    Effects.  A method that mutates [self] and may raise is a function from
    the object's state to an outcome and the state at the time it returned or
    raised: what was appended before an exception stays appended.  The
    operating system is an explicit input: one [Reading] per collection tick,
    a script of clock readings for the loop, and a [World] of files and
    console lines for the report. *)

From Stdlib Require Import ZArith QArith Qminmax List String Bool Lia.
Import ListNotations.

Set Implicit Arguments.

(** ** Python outcomes and a state-and-exception monad *)

Module Py.

Inductive exn : Type :=
| AttributeError   (* attribute access on None *)
| IndexError       (* list index out of range *)
| ValueError       (* numpy reduction of an empty sequence *)
| OSError.         (* a file that cannot be written *)

Inductive outcome (A : Type) : Type :=
| Return (a : A)
| Raise (e : exn).

Arguments Raise {A} e.

(** A computation over a mutable state [S]. *)
Definition M (S A : Type) : Type := S -> outcome A * S.

Definition ret {S A} (a : A) : M S A := fun s => (Return a, s).

Definition raise {S A} (e : exn) : M S A := fun s => (Raise e, s).

Definition bind {S A B} (m : M S A) (k : A -> M S B) : M S B :=
  fun s => match m s with
           | (Return a, s') => k a s'
           | (Raise e, s') => (Raise e, s')
           end.

Definition get {S} : M S S := fun s => (Return s, s).

Definition modify {S} (f : S -> S) : M S unit := fun s => (Return tt, f s).

(** [x.attr] where [x] may be [None]. *)
Definition attr {S A} (x : option A) : M S A :=
  match x with
  | Some a => ret a
  | None => raise AttributeError
  end.

(** An outcome computed without touching the state. *)
Definition lift {S A} (o : outcome A) : M S A := fun s => (o, s).

(** [l[i]] *)
Definition index {A} (l : list A) (i : nat) : outcome A :=
  match nth_error l i with
  | Some a => Return a
  | None => Raise IndexError
  end.

Definition obind {A B} (o : outcome A) (k : A -> outcome B) : outcome B :=
  match o with
  | Return a => k a
  | Raise e => Raise e
  end.

(** [[f(i) for i in l]], stopping at the first exception. *)
Fixpoint traverse {A B} (f : A -> outcome B) (l : list A) : outcome (list B) :=
  match l with
  | [] => Return []
  | a :: l' => obind (f a) (fun b => obind (traverse f l') (fun bs => Return (b :: bs)))
  end.

End Py.

Import Py.

Declare Scope py_scope.
Delimit Scope py_scope with py.
Notation "x <- m ;; k" := (bind m (fun x => k))
  (at level 61, m at next level, right associativity) : py_scope.
Notation "m ;; k" := (bind m (fun _ => k))
  (at level 61, right associativity) : py_scope.
Notation "x <~ o ;; k" := (obind o (fun x => k))
  (at level 61, o at next level, right associativity) : py_scope.

(** ** What psutil and GPUtil return *)

(** [psutil.disk_io_counters()] *)
Record sdiskio : Type := { read_bytes : Z; write_bytes : Z }.

(** [psutil.net_io_counters()] *)
Record snetio : Type := { bytes_sent : Z; bytes_recv : Z }.

(** An entry of [psutil.sensors_temperatures()]. *)
Record shwtemp : Type := { current : Q }.

(** An element of [GPUtil.getGPUs()]. *)
Record GPU : Type := { load : Q; temperature : Q; memoryUtil : Q }.

(** The answers of the platform during one call of [collect_data].
    [disk_io_counters] and [net_io_counters] are [None] where psutil returns
    [None] (a diskless host, a host without network interfaces);
    [sensors_temperatures] and [getGPUs] are [None] where the call raises
    (the function does not exist on the platform, the driver fails).  The
    dict of temperatures keeps its insertion order. *)
Record Reading : Type := {
  time_time : Q;
  cpu_percent_now : Q;
  virtual_memory_percent : Q;
  disk_io_counters : option sdiskio;
  net_io_counters : option snetio;
  sensors_temperatures : option (list (string * list shwtemp));
  getGPUs : option (list GPU)
}.

(** ** The monitor object *)

Record SystemMonitor : Type := {
  duration : Q;
  interval : Q;
  timestamps : list Q;
  cpu_percent : list Q;
  memory_percent : list Q;
  disk_read : list Q;
  disk_write : list Q;
  network_sent : list Q;
  network_recv : list Q;
  cpu_temp : list Q;
  gpu_util : list Q;
  gpu_temp : list Q;
  gpu_memory : list Q;
  last_net : option snetio;
  last_disk : option sdiskio;
  start_time : Q
}.

(** [SystemMonitor.__init__]: empty series, the counters and the clock read
    at construction. *)
Definition init (duration : Q) (net : option snetio) (disk : option sdiskio)
    (now : Q) : SystemMonitor :=
  {| duration := duration; interval := 1;
     timestamps := []; cpu_percent := []; memory_percent := [];
     disk_read := []; disk_write := [];
     network_sent := []; network_recv := [];
     cpu_temp := []; gpu_util := []; gpu_temp := []; gpu_memory := [];
     last_net := net; last_disk := disk; start_time := now |}.

(** [self.<column>.append(v)] and the two assignments of [collect_data]. *)
Module Upd.

Definition timestamps_append (v : Q) (m : SystemMonitor) : SystemMonitor :=
  {| duration := duration m; interval := interval m;
     timestamps := timestamps m ++ [v];
     cpu_percent := cpu_percent m; memory_percent := memory_percent m;
     disk_read := disk_read m; disk_write := disk_write m;
     network_sent := network_sent m; network_recv := network_recv m;
     cpu_temp := cpu_temp m; gpu_util := gpu_util m; gpu_temp := gpu_temp m;
     gpu_memory := gpu_memory m;
     last_net := last_net m; last_disk := last_disk m; start_time := start_time m |}.

Definition cpu_percent_append (v : Q) (m : SystemMonitor) : SystemMonitor :=
  {| duration := duration m; interval := interval m;
     timestamps := timestamps m;
     cpu_percent := cpu_percent m ++ [v]; memory_percent := memory_percent m;
     disk_read := disk_read m; disk_write := disk_write m;
     network_sent := network_sent m; network_recv := network_recv m;
     cpu_temp := cpu_temp m; gpu_util := gpu_util m; gpu_temp := gpu_temp m;
     gpu_memory := gpu_memory m;
     last_net := last_net m; last_disk := last_disk m; start_time := start_time m |}.

Definition memory_percent_append (v : Q) (m : SystemMonitor) : SystemMonitor :=
  {| duration := duration m; interval := interval m;
     timestamps := timestamps m;
     cpu_percent := cpu_percent m; memory_percent := memory_percent m ++ [v];
     disk_read := disk_read m; disk_write := disk_write m;
     network_sent := network_sent m; network_recv := network_recv m;
     cpu_temp := cpu_temp m; gpu_util := gpu_util m; gpu_temp := gpu_temp m;
     gpu_memory := gpu_memory m;
     last_net := last_net m; last_disk := last_disk m; start_time := start_time m |}.

Definition disk_read_append (v : Q) (m : SystemMonitor) : SystemMonitor :=
  {| duration := duration m; interval := interval m;
     timestamps := timestamps m;
     cpu_percent := cpu_percent m; memory_percent := memory_percent m;
     disk_read := disk_read m ++ [v]; disk_write := disk_write m;
     network_sent := network_sent m; network_recv := network_recv m;
     cpu_temp := cpu_temp m; gpu_util := gpu_util m; gpu_temp := gpu_temp m;
     gpu_memory := gpu_memory m;
     last_net := last_net m; last_disk := last_disk m; start_time := start_time m |}.

Definition disk_write_append (v : Q) (m : SystemMonitor) : SystemMonitor :=
  {| duration := duration m; interval := interval m;
     timestamps := timestamps m;
     cpu_percent := cpu_percent m; memory_percent := memory_percent m;
     disk_read := disk_read m; disk_write := disk_write m ++ [v];
     network_sent := network_sent m; network_recv := network_recv m;
     cpu_temp := cpu_temp m; gpu_util := gpu_util m; gpu_temp := gpu_temp m;
     gpu_memory := gpu_memory m;
     last_net := last_net m; last_disk := last_disk m; start_time := start_time m |}.

Definition network_sent_append (v : Q) (m : SystemMonitor) : SystemMonitor :=
  {| duration := duration m; interval := interval m;
     timestamps := timestamps m;
     cpu_percent := cpu_percent m; memory_percent := memory_percent m;
     disk_read := disk_read m; disk_write := disk_write m;
     network_sent := network_sent m ++ [v]; network_recv := network_recv m;
     cpu_temp := cpu_temp m; gpu_util := gpu_util m; gpu_temp := gpu_temp m;
     gpu_memory := gpu_memory m;
     last_net := last_net m; last_disk := last_disk m; start_time := start_time m |}.

Definition network_recv_append (v : Q) (m : SystemMonitor) : SystemMonitor :=
  {| duration := duration m; interval := interval m;
     timestamps := timestamps m;
     cpu_percent := cpu_percent m; memory_percent := memory_percent m;
     disk_read := disk_read m; disk_write := disk_write m;
     network_sent := network_sent m; network_recv := network_recv m ++ [v];
     cpu_temp := cpu_temp m; gpu_util := gpu_util m; gpu_temp := gpu_temp m;
     gpu_memory := gpu_memory m;
     last_net := last_net m; last_disk := last_disk m; start_time := start_time m |}.

Definition cpu_temp_append (v : Q) (m : SystemMonitor) : SystemMonitor :=
  {| duration := duration m; interval := interval m;
     timestamps := timestamps m;
     cpu_percent := cpu_percent m; memory_percent := memory_percent m;
     disk_read := disk_read m; disk_write := disk_write m;
     network_sent := network_sent m; network_recv := network_recv m;
     cpu_temp := cpu_temp m ++ [v]; gpu_util := gpu_util m; gpu_temp := gpu_temp m;
     gpu_memory := gpu_memory m;
     last_net := last_net m; last_disk := last_disk m; start_time := start_time m |}.

Definition gpu_util_append (v : Q) (m : SystemMonitor) : SystemMonitor :=
  {| duration := duration m; interval := interval m;
     timestamps := timestamps m;
     cpu_percent := cpu_percent m; memory_percent := memory_percent m;
     disk_read := disk_read m; disk_write := disk_write m;
     network_sent := network_sent m; network_recv := network_recv m;
     cpu_temp := cpu_temp m; gpu_util := gpu_util m ++ [v]; gpu_temp := gpu_temp m;
     gpu_memory := gpu_memory m;
     last_net := last_net m; last_disk := last_disk m; start_time := start_time m |}.

Definition gpu_temp_append (v : Q) (m : SystemMonitor) : SystemMonitor :=
  {| duration := duration m; interval := interval m;
     timestamps := timestamps m;
     cpu_percent := cpu_percent m; memory_percent := memory_percent m;
     disk_read := disk_read m; disk_write := disk_write m;
     network_sent := network_sent m; network_recv := network_recv m;
     cpu_temp := cpu_temp m; gpu_util := gpu_util m; gpu_temp := gpu_temp m ++ [v];
     gpu_memory := gpu_memory m;
     last_net := last_net m; last_disk := last_disk m; start_time := start_time m |}.

Definition gpu_memory_append (v : Q) (m : SystemMonitor) : SystemMonitor :=
  {| duration := duration m; interval := interval m;
     timestamps := timestamps m;
     cpu_percent := cpu_percent m; memory_percent := memory_percent m;
     disk_read := disk_read m; disk_write := disk_write m;
     network_sent := network_sent m; network_recv := network_recv m;
     cpu_temp := cpu_temp m; gpu_util := gpu_util m; gpu_temp := gpu_temp m;
     gpu_memory := gpu_memory m ++ [v];
     last_net := last_net m; last_disk := last_disk m; start_time := start_time m |}.

Definition set_last_net (v : snetio) (m : SystemMonitor) : SystemMonitor :=
  {| duration := duration m; interval := interval m;
     timestamps := timestamps m;
     cpu_percent := cpu_percent m; memory_percent := memory_percent m;
     disk_read := disk_read m; disk_write := disk_write m;
     network_sent := network_sent m; network_recv := network_recv m;
     cpu_temp := cpu_temp m; gpu_util := gpu_util m; gpu_temp := gpu_temp m;
     gpu_memory := gpu_memory m;
     last_net := Some v; last_disk := last_disk m; start_time := start_time m |}.

Definition set_last_disk (v : sdiskio) (m : SystemMonitor) : SystemMonitor :=
  {| duration := duration m; interval := interval m;
     timestamps := timestamps m;
     cpu_percent := cpu_percent m; memory_percent := memory_percent m;
     disk_read := disk_read m; disk_write := disk_write m;
     network_sent := network_sent m; network_recv := network_recv m;
     cpu_temp := cpu_temp m; gpu_util := gpu_util m; gpu_temp := gpu_temp m;
     gpu_memory := gpu_memory m;
     last_net := last_net m; last_disk := Some v; start_time := start_time m |}.

End Upd.

(** ** Reading the sensors *)

(** [d[k]] on a dict kept as an association list; [None] when [k not in d]. *)
Fixpoint dict_get {V : Type} (k : string) (d : list (string * V)) : option V :=
  match d with
  | [] => None
  | (k', v) :: d' => if String.eqb k k' then Some v else dict_get k d'
  end.

(** [entries[0].current]; the [IndexError] of an empty list is caught by the
    caller's bare [except], which makes the method return [None]. *)
Definition first_current (entries : list shwtemp) : option Q :=
  match entries with
  | e :: _ => Some (current e)
  | [] => None
  end.

(** [SystemMonitor.get_cpu_temp]: the result is Python's [None] or a float. *)
Definition get_cpu_temp (r : Reading) : option Q :=
  match sensors_temperatures r with
  | None => None
  | Some temps =>
      match dict_get "coretemp" temps with
      | Some entries => first_current entries
      | None =>
          match dict_get "cpu_thermal" temps with
          | Some entries => first_current entries
          | None =>
              match temps with
              | (_, entries) :: _ => first_current entries
              | [] => None
              end
          end
      end
  end.

(** [x if x else 0]: [None] and a zero float are both falsy. *)
Definition or_zero (x : option Q) : Q :=
  match x with
  | Some v => if Qeq_bool v 0 then 0 else v
  | None => 0
  end.

(** The expression [(cur - last) / (1024 * 1024)] of the four rate fields. *)
Definition delta_mb (cur last : Z) : Q :=
  inject_Z (cur - last) / inject_Z (1024 * 1024).

Section Monitor.

(** The module-level flag set when [import GPUtil] succeeds. *)
Variable GPU_AVAILABLE : bool.

(** [SystemMonitor.get_gpu_info] *)
Definition get_gpu_info (r : Reading) : option Q * option Q * option Q :=
  if negb GPU_AVAILABLE then (None, None, None)
  else match getGPUs r with
       | Some (gpu :: _) =>
           (Some (load gpu * 100), Some (temperature gpu), Some (memoryUtil gpu * 100))
       | _ => (None, None, None)
       end.

Local Open Scope py_scope.

(** [SystemMonitor.collect_data] *)
Definition collect_data (r : Reading) : M SystemMonitor unit :=
  self <- get ;;
  let current_time := time_time r - start_time self in
  modify (Upd.timestamps_append current_time) ;;
  modify (Upd.cpu_percent_append (cpu_percent_now r)) ;;
  modify (Upd.memory_percent_append (virtual_memory_percent r)) ;;
  self <- get ;;
  match disk_io_counters r, last_disk self with
  | Some disk, Some last =>
      let disk_read_rate := delta_mb (read_bytes disk) (read_bytes last) in
      let disk_write_rate := delta_mb (write_bytes disk) (write_bytes last) in
      modify (Upd.disk_read_append disk_read_rate) ;;
      modify (Upd.disk_write_append disk_write_rate) ;;
      modify (Upd.set_last_disk disk)
  | _, _ =>
      modify (Upd.disk_read_append 0) ;;
      modify (Upd.disk_write_append 0)
  end ;;
  self <- get ;;
  net <- attr (net_io_counters r) ;;
  last <- attr (last_net self) ;;
  let net_sent_rate := delta_mb (bytes_sent net) (bytes_sent last) in
  let net_recv_rate := delta_mb (bytes_recv net) (bytes_recv last) in
  modify (Upd.network_sent_append net_sent_rate) ;;
  modify (Upd.network_recv_append net_recv_rate) ;;
  modify (Upd.set_last_net net) ;;
  let temp := get_cpu_temp r in
  modify (Upd.cpu_temp_append (or_zero temp)) ;;
  let '(gpu_util, gpu_temp, gpu_mem) := get_gpu_info r in
  modify (Upd.gpu_util_append (or_zero gpu_util)) ;;
  modify (Upd.gpu_temp_append (or_zero gpu_temp)) ;;
  modify (Upd.gpu_memory_append (or_zero gpu_mem)).

End Monitor.

(** ** The report: summary statistics *)

Definition Qlt_bool (x y : Q) : bool := negb (Qle_bool y x).

(** [any(t > 0 for t in column)] *)
Definition any_positive (column : list Q) : bool :=
  existsb (fun t => Qlt_bool 0 t) column.

Definition np_sum (column : list Q) : Q := fold_left Qplus column 0.

(** [np.mean]; of an empty column numpy returns nan (with a warning), which
    no row ever shows because [np.min] raises on the same column right
    after.  The model is the exact mean; numpy returns that value rounded,
    and no statement below compares it with other values of the column. *)
Definition np_mean (column : list Q) : Q :=
  np_sum column / inject_Z (Z.of_nat (List.length column)).

Definition np_min (column : list Q) : outcome Q :=
  match column with
  | [] => Raise ValueError
  | x :: column' => Return (fold_left Qmin column' x)
  end.

Definition np_max (column : list Q) : outcome Q :=
  match column with
  | [] => Raise ValueError
  | x :: column' => Return (fold_left Qmax column' x)
  end.

(** The population variance, of which [np.std] is the square root. *)
Definition np_var (column : list Q) : Q :=
  let mu := np_mean column in
  np_mean (map (fun x => (x - mu) * (x - mu)) column).

(** A row of [summary_data]: the header, or a resource with its average,
    minimum, maximum and standard deviation (the numbers, before their
    formatting with two decimals). *)
Inductive SummaryRow : Type :=
| SummaryHeader
| Stat (resource : string) (average minimum maximum std_dev : Q).

(** A row of [detailed_data]. *)
Inductive DetailRow : Type :=
| DetailHeader
| Ellipsis
| Record_ (time cpu memory disk_r disk_w net_s net_r : Q).

(** ** Files and console *)

Inductive FileContent : Type :=
| ChartImage
| Document (summary : list SummaryRow) (detailed : list DetailRow).

Record World : Type := {
  files : list (string * FileContent);
  console : list string
}.

Definition exists_file (name : string) (w : World) : bool :=
  existsb (fun f => String.eqb name (fst f)) (files w).

Definition remove_file (name : string) (w : World) : World :=
  {| files := filter (fun f => negb (String.eqb name (fst f))) (files w);
     console := console w |}.

Definition write_file (name : string) (c : FileContent) (w : World) : World :=
  {| files := (name, c) :: files (remove_file name w); console := console w |}.

(** [print(line)]; the line breaks around the text are left out. *)
Definition print (line : string) : M World unit :=
  modify (fun w => {| files := files w; console := console w ++ [line] |}).

Section Report.

Variable GPU_AVAILABLE : bool.

(** The square root of [np.std], on the values it is applied to. *)
Variable sqrt : Q -> Q.

(** Which paths the process may write. *)
Variable writable : string -> bool.

Local Open Scope py_scope.

Definition np_std (column : list Q) : Q := sqrt (np_var column).

(** One statistics row of [summary_data], cells evaluated left to right. *)
Definition stat_row (resource : string) (column : list Q) : outcome SummaryRow :=
  let average := np_mean column in
  minimum <~ np_min column ;;
  maximum <~ np_max column ;;
  Return (Stat resource average minimum maximum (np_std column)).

(** [summary_data] of [generate_pdf_report]. *)
Definition summary_data (self : SystemMonitor) : outcome (list SummaryRow) :=
  cpu <~ stat_row "CPU Usage (%)" (cpu_percent self) ;;
  mem <~ stat_row "Memory Usage (%)" (memory_percent self) ;;
  dr <~ stat_row "Disk Read (MB/s)" (disk_read self) ;;
  dw <~ stat_row "Disk Write (MB/s)" (disk_write self) ;;
  ns <~ stat_row "Network Sent (MB/s)" (network_sent self) ;;
  nr <~ stat_row "Network Recv (MB/s)" (network_recv self) ;;
  let summary := [SummaryHeader; cpu; mem; dr; dw; ns; nr] in
  summary <~ (if any_positive (cpu_temp self) then
                row <~ stat_row "CPU Temperature (°C)" (cpu_temp self) ;;
                Return (summary ++ [row])
              else Return summary) ;;
  if GPU_AVAILABLE && any_positive (gpu_util self) then
    u <~ stat_row "GPU Utilization (%)" (gpu_util self) ;;
    m <~ stat_row "GPU Memory (%)" (gpu_memory self) ;;
    t <~ stat_row "GPU Temperature (°C)" (gpu_temp self) ;;
    Return (summary ++ [u; m; t])
  else Return summary.

(** [range(a, b)] *)
Definition range (a b : nat) : list nat := seq a (b - a).

(** The row appended for index [i]; a column shorter than [i + 1] raises. *)
Definition detail_record (self : SystemMonitor) (i : nat) : outcome DetailRow :=
  t <~ index (timestamps self) i ;;
  c <~ index (cpu_percent self) i ;;
  m <~ index (memory_percent self) i ;;
  dr <~ index (disk_read self) i ;;
  dw <~ index (disk_write self) i ;;
  ns <~ index (network_sent self) i ;;
  nr <~ index (network_recv self) i ;;
  Return (Record_ t c m dr dw ns nr).

(** [detailed_data] of [generate_pdf_report]. *)
Definition detailed_data (self : SystemMonitor) : outcome (list DetailRow) :=
  let n := List.length (timestamps self) in
  first <~ traverse (detail_record self) (range 0 (Nat.min 10 n)) ;;
  let detailed := DetailHeader :: first in
  if (20 <? n)%nat then
    last <~ traverse (detail_record self) (range (Nat.max 10 (n - 10)) n) ;;
    Return (detailed ++ [Ellipsis] ++ last)
  else Return detailed.

Definition graph_file : string := "temp_graphs.png".

(** [plt.savefig(graph_file)] and [doc.build(elements)]: the file is written,
    or the call raises where the path cannot be written. *)
Definition save (name : string) (c : FileContent) : M World unit :=
  if writable name then modify (write_file name c) else raise OSError.

(** [SystemMonitor.generate_pdf_report] *)
Definition generate_pdf_report (self : SystemMonitor) (filename : string)
    : M World unit :=
  print ("Generating PDF report: " ++ filename) ;;
  summary <- lift (summary_data self) ;;
  save graph_file ChartImage ;;
  detailed <- lift (detailed_data self) ;;
  save filename (Document summary detailed) ;;
  w <- get ;;
  (if exists_file graph_file w then modify (remove_file graph_file) else ret tt) ;;
  print ("PDF report generated successfully: " ++ filename).

(** ** The collection loop *)

(** What the loop of [start] meets at the head of an iteration: the clock
    read by the loop test together with the platform's answers for the tick
    that follows when the test passes, or the user's interruption.  The
    interruption is the one that arrives between two ticks, while the loop
    sleeps or tests the clock; one that arrives inside [collect_data] is not
    modelled, nor is the progress line, whose division by the duration
    raises when the duration is 0 and the clock has stepped back. *)
Inductive Event : Type :=
| Tick (now : Q) (r : Reading)
| KeyboardInterrupt.

Inductive loop_exit : Type :=
| DurationElapsed
| Interrupted
| ScriptExhausted.   (* the loop is still running where the script ends *)

(** The [while] loop of [start]; [start_time] is the local variable of
    [start], not the attribute read by [collect_data]. *)
Fixpoint data_collection_loop (start_time : Q) (script : list Event)
    : M SystemMonitor loop_exit :=
  match script with
  | [] => ret ScriptExhausted
  | KeyboardInterrupt :: _ => ret Interrupted
  | Tick now r :: script' =>
      self <- get ;;
      if Qlt_bool (now - start_time) (duration self) then
        collect_data GPU_AVAILABLE r ;;
        data_collection_loop start_time script'
      else ret DurationElapsed
  end.

Definition say (line : string) (w : World) : World := snd (print line w).

(** The lines printed before the loop; the first one, which formats the
    duration, and the progress line of each iteration are left out. *)
Definition announce (w : World) : World :=
  say "Press Ctrl+C to stop early and generate report."
    (say "Data collection in progress (headless mode)..." w).

(** [SystemMonitor.start]: [None] where the script ends before the loop
    does; otherwise the outcome of the call, the monitor and the world it
    leaves.  An exception of [collect_data] is not caught. *)
Definition start (start_time : Q) (script : list Event)
    (self : SystemMonitor) (w : World)
    : option (outcome unit * SystemMonitor * World) :=
  let w := announce w in
  match data_collection_loop start_time script self with
  | (Raise e, self') => Some (Raise e, self', w)
  | (Return ScriptExhausted, _) => None
  | (Return how, self') =>
      let w := match how with
               | Interrupted => say "Monitoring interrupted by user." w
               | _ => w
               end in
      let w := say "Data collection complete!" w in
      if (0 <? List.length (timestamps self'))%nat then
        let '(o, w') := generate_pdf_report self' "system_monitor_report.pdf" w in
        Some (o, self', w')
      else
        Some (Return tt, self', say "No data collected. Report not generated." w)
  end.

End Report.

(** * Predicates of the statements *)

(** All eleven columns have the length of [timestamps]. *)
Definition aligned (m : SystemMonitor) : Prop :=
  let n := List.length (timestamps m) in
  List.length (cpu_percent m) = n /\ List.length (memory_percent m) = n /\
  List.length (disk_read m) = n /\ List.length (disk_write m) = n /\
  List.length (network_sent m) = n /\ List.length (network_recv m) = n /\
  List.length (cpu_temp m) = n /\ List.length (gpu_util m) = n /\
  List.length (gpu_temp m) = n /\ List.length (gpu_memory m) = n.

(** The values a tick stores in the two disk columns. *)
Definition disk_rates (r : Reading) (m : SystemMonitor) : Q * Q :=
  match disk_io_counters r, last_disk m with
  | Some disk, Some last =>
      (delta_mb (read_bytes disk) (read_bytes last),
       delta_mb (write_bytes disk) (write_bytes last))
  | _, _ => (0, 0)
  end.

(** The shape of the state after a tick that returned: one value more in
    each column. *)
Record appended (G : bool) (r : Reading) (net last : snetio)
    (m m' : SystemMonitor) : Prop := {
  app_timestamps : timestamps m' = timestamps m ++ [time_time r - start_time m];
  app_cpu_percent : cpu_percent m' = cpu_percent m ++ [cpu_percent_now r];
  app_memory_percent : memory_percent m' = memory_percent m ++ [virtual_memory_percent r];
  app_disk_read : disk_read m' = disk_read m ++ [fst (disk_rates r m)];
  app_disk_write : disk_write m' = disk_write m ++ [snd (disk_rates r m)];
  app_network_sent :
    network_sent m' = network_sent m ++ [delta_mb (bytes_sent net) (bytes_sent last)];
  app_network_recv :
    network_recv m' = network_recv m ++ [delta_mb (bytes_recv net) (bytes_recv last)];
  app_cpu_temp : cpu_temp m' = cpu_temp m ++ [or_zero (get_cpu_temp r)];
  app_gpu_util : gpu_util m' = gpu_util m ++ [or_zero (fst (fst (get_gpu_info G r)))];
  app_gpu_temp : gpu_temp m' = gpu_temp m ++ [or_zero (snd (fst (get_gpu_info G r)))];
  app_gpu_memory : gpu_memory m' = gpu_memory m ++ [or_zero (snd (get_gpu_info G r))];
  app_duration : duration m' = duration m;
  app_start_time : start_time m' = start_time m;
  app_last_net : last_net m' = Some net
}.


(** The time between the previous sample (the construction of the monitor,
    for the first tick) and this tick. *)
Definition elapsed_since_last_tick (r : Reading) (m : SystemMonitor) : Q :=
  (time_time r - start_time m) - last (timestamps m) 0.

(** The rate rule in the words of the design document: the byte delta per
    elapsed second, never negative, in MB/s.  It is compared below with what
    [collect_data] stores. *)
Definition documented_rate (current previous : Z) (elapsed : Q) : Q :=
  Qmax 0 (inject_Z (current - previous) / elapsed) / inject_Z (1024 * 1024).

(** A statistics row for [resource] is in the table. *)
Definition has_row (resource : string) (rows : list SummaryRow) : bool :=
  existsb (fun row => match row with
                      | Stat name _ _ _ _ => String.eqb resource name
                      | SummaryHeader => false
                      end) rows.

(** Every row for [resource] in the table holds the statistics of the whole
    [column]: its sum over the number [n] of samples, its minimum, its
    maximum, and the square root of its variance. *)
Definition stats_over (sqrt : Q -> Q) (rows : list SummaryRow)
    (resource : string) (column : list Q) (n : nat) : Prop :=
  forall average minimum maximum std_dev,
    In (Stat resource average minimum maximum std_dev) rows ->
    average = np_sum column / inject_Z (Z.of_nat n) /\
    np_min column = Return minimum /\
    np_max column = Return maximum /\
    std_dev = sqrt (np_var column).

(** The detail row of sample [i]. *)
Definition row_at (self : SystemMonitor) (i : nat) : DetailRow :=
  Record_ (nth i (timestamps self) 0) (nth i (cpu_percent self) 0)
          (nth i (memory_percent self) 0)
          (nth i (disk_read self) 0) (nth i (disk_write self) 0)
          (nth i (network_sent self) 0) (nth i (network_recv self) 0).

(** The sample indices shown by the detailed table, in order. *)
Definition excerpt_indices (n : nat) : list nat :=
  seq 0 (Nat.min 10 n) ++ (if (20 <? n)%nat then seq (n - 10) 10 else []).

(** * Concrete runs *)

Module Run.

Definition MiB : Z := 1024 * 1024.

Definition disk (r w : Z) : option sdiskio :=
  Some {| read_bytes := r; write_bytes := w |}.

Definition net (s r : Z) : option snetio :=
  Some {| bytes_sent := s; bytes_recv := r |}.

(** A host without temperature sensors and without GPU. *)
Definition reading (now : Q) (d : option sdiskio) (n : option snetio) : Reading :=
  {| time_time := now; cpu_percent_now := 25; virtual_memory_percent := 40;
     disk_io_counters := d; net_io_counters := n;
     sensors_temperatures := None; getGPUs := None |}.

(** A monitor constructed at time 100 with all counters at 50 MiB. *)
Definition fresh : SystemMonitor :=
  init 120 (net (50 * MiB) (50 * MiB)) (disk (50 * MiB) (50 * MiB)) 100.

(** One second later: 10 MiB read, 2 MiB written, 3 MiB sent, 1 MiB received. *)
Definition tick1 : Reading :=
  reading 101 (disk (60 * MiB) (52 * MiB)) (net (53 * MiB) (51 * MiB)).

(** The counters restarted from zero: the disk has read 1 MiB since. *)
Definition after_reset : Reading :=
  reading 101 (disk (1 * MiB) 0) (net 0 0).

(** The same byte deltas as [tick1], read two seconds after construction. *)
Definition late_tick : Reading :=
  reading 102 (disk (60 * MiB) (52 * MiB)) (net (53 * MiB) (51 * MiB)).

(** A tick on a host whose network interfaces are gone. *)
Definition no_network : Reading :=
  reading 101 (disk (60 * MiB) (52 * MiB)) None.

(** A host with an idle GPU at 40 degrees and a sensor below zero. *)
Definition idle_gpu : Reading :=
  {| time_time := 101; cpu_percent_now := 25; virtual_memory_percent := 40;
     disk_io_counters := disk (60 * MiB) (52 * MiB);
     net_io_counters := net (53 * MiB) (51 * MiB);
     sensors_temperatures := Some [("coretemp"%string, [{| current := -5 |}])];
     getGPUs := Some [{| load := 0; temperature := 40; memoryUtil := 1 # 10 |}] |}.

(** A host with a busy GPU and a warm CPU. *)
Definition busy_gpu : Reading :=
  {| time_time := 101; cpu_percent_now := 90; virtual_memory_percent := 40;
     disk_io_counters := disk (60 * MiB) (52 * MiB);
     net_io_counters := net (53 * MiB) (51 * MiB);
     sensors_temperatures := Some [("coretemp"%string, [{| current := 55 |}])];
     getGPUs := Some [{| load := 1 # 2; temperature := 60; memoryUtil := 1 # 4 |}] |}.

(** The [k]-th tick of a run: one second and one MiB of every counter more
    than the tick before. *)
Definition nth_tick (k : nat) : Reading :=
  let z := Z.of_nat k in
  reading (100 + inject_Z z) (disk ((50 + z) * MiB) ((50 + z) * MiB))
          (net ((50 + z) * MiB) ((50 + z) * MiB)).

(** The monitor after [n] ticks. *)
Definition after_ticks (n : nat) : SystemMonitor :=
  fold_left (fun m k => snd (collect_data false (nth_tick k) m)) (seq 1 n) fresh.

(** A monitor configured for a duration of 0 seconds. *)
Definition zero_duration : SystemMonitor :=
  init 0 (net (50 * MiB) (50 * MiB)) (disk (50 * MiB) (50 * MiB)) 100.

(** A monitor configured for half a second, less than the interval. *)
Definition half_second : SystemMonitor :=
  init (1 # 2) (net (50 * MiB) (50 * MiB)) (disk (50 * MiB) (50 * MiB)) 100.

(** Every path can be written. *)
Definition all_writable (name : string) : bool := true.

Definition empty_world : World := {| files := []; console := [] |}.

(** Only the chart image can be written. *)
Definition only_chart_writable (name : string) : bool :=
  String.eqb name "temp_graphs.png".

End Run.

(** * The live view *)

(** [max(l)] of Python: the first of the largest elements; an empty
    sequence raises. *)
Definition py_max (l : list Q) : outcome Q :=
  match l with
  | [] => Raise ValueError
  | x :: l' => Return (fold_left (fun best v => if Qlt_bool best v then v else best) l' x)
  end.

(** [max(a, b)] *)
Definition py_max2 (a b : Q) : Q := if Qlt_bool a b then b else a.

(** [l[-1]] *)
Definition py_last (l : list Q) : outcome Q :=
  match l with
  | [] => Raise IndexError
  | _ :: _ => Return (last l 0)
  end.

(** The upper limit given to [set_ylim(0, top)]: a constant, or the
    product [base * factor] of a value computed from the store and a decimal
    literal of the source.  That product is rounded by the machine; the
    model keeps its two factors and does not evaluate it. *)
Inductive Limit : Type :=
| Fixed (top : Q)
| Scaled (base factor : Q).

(** What an axes object shows after a redraw: curves over a common abscissa
    with the upper limit of the ordinate (when one is set), or the lines of
    a centred text. *)
Inductive Panel : Type :=
| Curves (x : list Q) (ys : list (list Q)) (top : option Limit)
| Placeholder (text : list string).

(** The numbers of the status text. *)
Record Status : Type := {
  status_elapsed : Q;
  status_remaining : Q;
  status_cpu : Q;
  status_memory : Q;
  status_disk_read : Q;
  status_disk_write : Q;
  status_network_sent : Q;
  status_network_recv : Q
}.

Record Dashboard : Type := {
  ax_cpu : Panel;
  ax_memory : Panel;
  ax_disk_io : Panel;
  ax_network : Panel;
  ax_cpu_temp : Panel;
  ax_gpu : Panel;
  ax_summary : Status
}.

(** The attributes [fig] and [ax_*] of the monitor: whether the figure is
    still open and what its axes show, [None] for the empty grid that
    [setup_plot] leaves. *)
Record Axes : Type := {
  fig_open : bool;
  shown : option Dashboard
}.

(** The monitor together with its live view.  [axes] is [None] as long as
    [setup_plot] has not run: the attributes do not exist and reading one
    raises [AttributeError]. *)
Record LiveMonitor : Type := {
  monitor : SystemMonitor;
  axes : option Axes
}.

Definition set_axes (a : Axes) (v : LiveMonitor) : LiveMonitor :=
  {| monitor := monitor v; axes := Some a |}.

(** A method of the monitor that does not touch the live view. *)
Definition on_monitor {A : Type} (c : M SystemMonitor A) : M LiveMonitor A :=
  fun v => let '(o, m) := c (monitor v) in (o, {| monitor := m; axes := axes v |}).

(** [SystemMonitor.setup_plot]: a new figure with its seven axes, nothing
    drawn yet. *)
Definition setup_plot : M LiveMonitor unit :=
  modify (set_axes {| fig_open := true; shown := None |}).

(** [ax.plot(x, y)] for each [y], then the limit: matplotlib raises when
    the two sequences have different lengths. *)
Definition plot (x : list Q) (ys : list (list Q)) (top : option Limit)
    : outcome Panel :=
  if forallb (fun y => (List.length y =? List.length x)%nat) ys
  then Return (Curves x ys top)
  else Raise ValueError.

Section LiveView.

Variable GPU_AVAILABLE : bool.

Local Open Scope py_scope.

(** What the redraw of [update_plot] puts on the axes, once the method
    has found them.  On a store whose columns have different lengths
    [ax.plot] raises; every statement below is about stores whose columns
    have equal lengths. *)
Definition redraw (self : SystemMonitor) : outcome Dashboard :=
  cpu <~ plot (timestamps self) [cpu_percent self] (Some (Fixed 105)) ;;
  mem <~ plot (timestamps self) [memory_percent self] (Some (Fixed 105)) ;;
  top_r <~ py_max (disk_read self ++ [1]) ;;
  top_w <~ py_max (disk_write self ++ [1]) ;;
  disk <~ plot (timestamps self) [disk_read self; disk_write self]
            (Some (Scaled (py_max2 top_r top_w) (12 # 10))) ;;
  top_s <~ py_max (network_sent self ++ [1]) ;;
  top_v <~ py_max (network_recv self ++ [1]) ;;
  net <~ plot (timestamps self) [network_sent self; network_recv self]
           (Some (Scaled (py_max2 top_s top_v) (12 # 10))) ;;
  temp <~ (if any_positive (cpu_temp self) then
             top_t <~ py_max (cpu_temp self ++ [100]) ;;
             plot (timestamps self) [cpu_temp self] (Some (Scaled top_t (11 # 10)))
           else Return (Placeholder ["Temperature"; "Not Available"]%string)) ;;
  gpu <~ (if GPU_AVAILABLE && any_positive (gpu_util self) then
            plot (timestamps self) [gpu_util self; gpu_memory self]
              (Some (Fixed 105))
          else Return (Placeholder ["GPU"; "Not Available"]%string)) ;;
  current_cpu <~ py_last (cpu_percent self) ;;
  current_mem <~ py_last (memory_percent self) ;;
  elapsed <~ py_last (timestamps self) ;;
  let remaining := duration self - elapsed in
  dr <~ py_last (disk_read self) ;;
  dw <~ py_last (disk_write self) ;;
  ns <~ py_last (network_sent self) ;;
  nr <~ py_last (network_recv self) ;;
  Return {| ax_cpu := cpu; ax_memory := mem; ax_disk_io := disk;
            ax_network := net; ax_cpu_temp := temp; ax_gpu := gpu;
            ax_summary :=
              {| status_elapsed := elapsed; status_remaining := remaining;
                 status_cpu := current_cpu; status_memory := current_mem;
                 status_disk_read := dr; status_disk_write := dw;
                 status_network_sent := ns; status_network_recv := nr |} |}.

(** [SystemMonitor.update_plot]: the frame number is not used.  The sample
    is collected first; [plt.close(self.fig)] and [self.ax_cpu.clear()] are
    the first uses of the attributes made by [setup_plot]. *)
Definition update_plot (r : Reading) : M LiveMonitor unit :=
  on_monitor (collect_data GPU_AVAILABLE r) ;;
  v <- get ;;
  let self := monitor v in
  newest <- lift (py_last (timestamps self)) ;;
  if Qle_bool (duration self) newest then
    ax <- attr (axes v) ;;
    modify (set_axes {| fig_open := false; shown := shown ax |})
  else
    ax <- attr (axes v) ;;
    d <- lift (redraw self) ;;
    modify (set_axes {| fig_open := fig_open ax; shown := Some d |}).

End LiveView.

(** * Further predicates *)

(** [open(name)] in the model of the file system. *)
Definition read_file (name : string) (w : World) : option FileContent :=
  option_map snd (find (fun f => String.eqb name (fst f)) (files w)).

(** Later elements are larger. *)
Fixpoint ascending (l : list Q) : Prop :=
  match l with
  | [] => True
  | x :: l' => (forall y, In y l' -> x < y) /\ ascending l'
  end.

(** Every tick of the script reads the clock later than [t]. *)
Fixpoint clock_advances (t : Q) (script : list Event) : Prop :=
  match script with
  | [] => True
  | KeyboardInterrupt :: _ => True
  | Tick _ r :: script' => t < time_time r /\ clock_advances (time_time r) script'
  end.

(** The ticks of a script whose readings come with network counters. *)
Definition with_network (e : Event) : Prop :=
  match e with
  | Tick _ r => net_io_counters r <> None
  | KeyboardInterrupt => False
  end.

(** The loop test of [start] passes for the event. *)
Definition within (start_time duration : Q) (e : Event) : Prop :=
  match e with
  | Tick now _ => now - start_time < duration
  | KeyboardInterrupt => False
  end.

(** * Further concrete runs *)

Module Scene.

(** Two sensors, ['coretemp'] listed second. *)
Definition two_sensors : Reading :=
  {| time_time := 101; cpu_percent_now := 25; virtual_memory_percent := 40;
     disk_io_counters := Run.disk (60 * Run.MiB) (52 * Run.MiB);
     net_io_counters := Run.net (53 * Run.MiB) (51 * Run.MiB);
     sensors_temperatures :=
       Some [("acpitz"%string, [{| current := 30 |}]);
             ("coretemp"%string, [{| current := 48 |}; {| current := 52 |}])];
     getGPUs := None |}.

(** ['coretemp'] is listed without a reading, another sensor has one. *)
Definition silent_coretemp : Reading :=
  {| time_time := 101; cpu_percent_now := 25; virtual_memory_percent := 40;
     disk_io_counters := Run.disk (60 * Run.MiB) (52 * Run.MiB);
     net_io_counters := Run.net (53 * Run.MiB) (51 * Run.MiB);
     sensors_temperatures :=
       Some [("coretemp"%string, []); ("acpitz"%string, [{| current := 30 |}])];
     getGPUs := None |}.

(** Three ticks inside a duration of 120 seconds, then a loop test after
    the duration. *)
Definition three_ticks : list Event :=
  [Tick 100 (Run.nth_tick 1); Tick 101 (Run.nth_tick 2); Tick 102 (Run.nth_tick 3)].

(** The same, followed by the loop test that ends the run. *)
Definition full_run : list Event :=
  three_ticks ++ [Tick 220 (Run.nth_tick 120)].

(** A monitor constructed while the disk counters could not be read. *)
Definition diskless_start : SystemMonitor :=
  init 120 (Run.net (50 * Run.MiB) (50 * Run.MiB)) None 100.

(** A directory that holds a file of the user and a stale chart image. *)
Definition littered_world : World :=
  {| files := [("notes.txt"%string, Document [] []);
               ("temp_graphs.png"%string, ChartImage)];
     console := [] |}.

(** A fresh monitor after [setup_plot], and one that never ran it. *)
Definition with_view (m : SystemMonitor) : LiveMonitor :=
  snd (setup_plot {| monitor := m; axes := None |}).

Definition without_view (m : SystemMonitor) : LiveMonitor :=
  {| monitor := m; axes := None |}.

End Scene.
(** * Properties *)

(** ** Arithmetic of the rate expression *)

Lemma delta_mb_nonneg (cur last : Z) : 0 <= delta_mb cur last <-> (last <= cur)%Z.
Proof. unfold delta_mb, Qdiv, Qmult, Qinv, Qle, inject_Z; simpl. lia. Qed.

Lemma delta_mb_zero (cur last : Z) : delta_mb cur last == 0 <-> cur = last.
Proof. unfold delta_mb, Qdiv, Qmult, Qinv, Qeq, inject_Z; simpl. lia. Qed.

Lemma delta_mb_mib (cur last k : Z) :
  (cur - last = k * (1024 * 1024))%Z -> delta_mb cur last == inject_Z k.
Proof.
  intros H. unfold delta_mb. rewrite H.
  unfold Qdiv, Qmult, Qinv, Qeq, inject_Z; simpl. lia.
Qed.

(** ** One collection tick *)

Ltac unfold_collect :=
  cbv beta iota zeta delta
    [collect_data bind get modify attr ret raise disk_rates
     Upd.timestamps_append Upd.cpu_percent_append Upd.memory_percent_append
     Upd.disk_read_append Upd.disk_write_append Upd.network_sent_append
     Upd.network_recv_append Upd.cpu_temp_append Upd.gpu_util_append
     Upd.gpu_temp_append Upd.gpu_memory_append Upd.set_last_net Upd.set_last_disk
     duration interval timestamps cpu_percent memory_percent disk_read disk_write
     network_sent network_recv cpu_temp gpu_util gpu_temp gpu_memory
     last_net last_disk start_time fst snd].

Ltac run_collect G r m :=
  destruct m as [?d ?i ?ts ?cp ?mp ?dr ?dw ?ns ?nr ?ct ?gu ?gt ?gm lastn lastd ?st];
  unfold_collect;
  destruct (disk_io_counters r) as [?disk|] eqn:Edisk; destruct lastd as [?lastd|];
  destruct (net_io_counters r) as [?net|] eqn:Enet; destruct lastn as [?lastn|];
  destruct (get_gpu_info G r) as [[?u ?t] ?g] eqn:Egpu;
  unfold_collect.

(** With the network counters at hand the tick returns, whatever the other
    sensors do. *)
Lemma collect_data_returns G r m net last :
  net_io_counters r = Some net -> last_net m = Some last ->
  exists m', collect_data G r m = (Return tt, m') /\ appended G r net last m m'.
Proof.
  run_collect G r m; intros Hn Hl; try discriminate;
    injection Hn as <-; injection Hl as <-;
    (eexists; split;
      [reflexivity
      | constructor; unfold disk_rates; rewrite ?Edisk, ?Egpu; reflexivity]).
Qed.

(** A tick that returned had the network counters at hand. *)
Lemma collect_data_inv G r m m' :
  collect_data G r m = (Return tt, m') ->
  exists net last,
    net_io_counters r = Some net /\ last_net m = Some last /\
    appended G r net last m m'.
Proof.
  intros H.
  destruct (net_io_counters r) as [net|] eqn:Hn;
    [destruct (last_net m) as [last|] eqn:Hl|].
  - destruct (collect_data_returns G r m Hn Hl) as (m'' & Hrun & Happ).
    rewrite Hrun in H. injection H as <-. eauto.
  - exfalso. revert H. run_collect G r m; discriminate.
  - exfalso. revert H. run_collect G r m; discriminate.
Qed.

Lemma appended_length G r net last m m' :
  appended G r net last m m' ->
  List.length (timestamps m') = S (List.length (timestamps m)) /\
  List.length (cpu_percent m') = S (List.length (cpu_percent m)) /\
  List.length (memory_percent m') = S (List.length (memory_percent m)) /\
  List.length (disk_read m') = S (List.length (disk_read m)) /\
  List.length (disk_write m') = S (List.length (disk_write m)) /\
  List.length (network_sent m') = S (List.length (network_sent m)) /\
  List.length (network_recv m') = S (List.length (network_recv m)) /\
  List.length (cpu_temp m') = S (List.length (cpu_temp m)) /\
  List.length (gpu_util m') = S (List.length (gpu_util m)) /\
  List.length (gpu_temp m') = S (List.length (gpu_temp m)) /\
  List.length (gpu_memory m') = S (List.length (gpu_memory m)).
Proof.
  intros [].
  repeat match goal with
         | H : _ = _ ++ [_] |- _ => rewrite H; clear H
         end.
  rewrite !length_app. simpl. repeat split; lia.
Qed.

Lemma appended_aligned G r net last m m' :
  appended G r net last m m' -> aligned m -> aligned m'.
Proof.
  intros Happ Hal. apply appended_length in Happ.
  unfold aligned in *. simpl in *. intuition congruence.
Qed.

(** C10: a call of [collect_data] that returns has made each of the eleven
    series lists exactly one element longer, and lists that had equal
    lengths before the call have equal lengths after it. *)
Theorem collect_data_grows_every_column G r m m' :
  collect_data G r m = (Return tt, m') ->
  (List.length (timestamps m') = S (List.length (timestamps m)) /\
   List.length (cpu_percent m') = S (List.length (cpu_percent m)) /\
   List.length (memory_percent m') = S (List.length (memory_percent m)) /\
   List.length (disk_read m') = S (List.length (disk_read m)) /\
   List.length (disk_write m') = S (List.length (disk_write m)) /\
   List.length (network_sent m') = S (List.length (network_sent m)) /\
   List.length (network_recv m') = S (List.length (network_recv m)) /\
   List.length (cpu_temp m') = S (List.length (cpu_temp m)) /\
   List.length (gpu_util m') = S (List.length (gpu_util m)) /\
   List.length (gpu_temp m') = S (List.length (gpu_temp m)) /\
   List.length (gpu_memory m') = S (List.length (gpu_memory m))) /\
  (aligned m -> aligned m').
Proof.
  intros H. destruct (collect_data_inv _ _ _ H) as (net & last & _ & _ & Happ).
  split.
  - exact (appended_length Happ).
  - exact (appended_aligned Happ).
Qed.

Lemma collect_data_grows_every_column_witness :
  aligned Run.fresh /\
  aligned (snd (collect_data false Run.tick1 Run.fresh)) /\
  List.length (gpu_memory (snd (collect_data false Run.tick1 Run.fresh))) = 1%nat.
Proof.
  assert (Hal : aligned Run.fresh) by (repeat split).
  destruct (collect_data_grows_every_column false Run.tick1 Run.fresh
              (m' := snd (collect_data false Run.tick1 Run.fresh)) eq_refl)
    as [Hlen Hal'].
  split; [exact Hal | split; [exact (Hal' Hal) | apply Hlen]].
Defined.

(** ** Rates *)

Lemma appended_last_rates G r net lastn m m' :
  appended G r net lastn m m' ->
  last (disk_read m') 0 = fst (disk_rates r m) /\
  last (disk_write m') 0 = snd (disk_rates r m) /\
  last (network_sent m') 0 = delta_mb (bytes_sent net) (bytes_sent lastn) /\
  last (network_recv m') 0 = delta_mb (bytes_recv net) (bytes_recv lastn).
Proof.
  intros [].
  repeat match goal with
         | H : _ = _ ++ [_] |- _ => rewrite H; clear H
         end.
  rewrite !last_last. repeat split.
Qed.

(** C1, as stated, fails: after the counters restarted from zero the tick
    stores a negative disk read rate (1 MiB read now, 50 MiB at the previous
    read: -49). *)
Lemma negative_rate_after_counter_reset :
  exists m',
    collect_data false Run.after_reset Run.fresh = (Return tt, m') /\
    last (disk_read m') 0 == -49 /\
    ~ 0 <= last (disk_read m') 0.
Proof.
  exists (snd (collect_data false Run.after_reset Run.fresh)).
  split; [vm_compute; reflexivity|]. split.
  - vm_compute. reflexivity.
  - vm_compute. intros H. apply H. reflexivity.
Qed.

(** C1, amended: in the sample appended by a tick that returned, each of the
    four rate fields is [>= 0] exactly when its cumulative counter did not
    decrease since the previous read (no clamping is applied); the disk
    rates are [0] when the disk counters or their previous snapshot are
    missing. *)
Theorem rate_nonnegative_iff_counter_did_not_decrease G r m m' :
  collect_data G r m = (Return tt, m') ->
  exists net lastn,
    net_io_counters r = Some net /\ last_net m = Some lastn /\
    (0 <= last (network_sent m') 0 <-> (bytes_sent lastn <= bytes_sent net)%Z) /\
    (0 <= last (network_recv m') 0 <-> (bytes_recv lastn <= bytes_recv net)%Z) /\
    match disk_io_counters r, last_disk m with
    | Some disk, Some lastd =>
        (0 <= last (disk_read m') 0 <-> (read_bytes lastd <= read_bytes disk)%Z) /\
        (0 <= last (disk_write m') 0 <-> (write_bytes lastd <= write_bytes disk)%Z)
    | _, _ => last (disk_read m') 0 = 0 /\ last (disk_write m') 0 = 0
    end.
Proof.
  intros H.
  destruct (collect_data_inv _ _ _ H) as (net & lastn & Hn & Hl & Happ).
  destruct (appended_last_rates Happ) as (Hdr & Hdw & Hns & Hnr).
  exists net, lastn. rewrite Hdr, Hdw, Hns, Hnr. unfold disk_rates.
  split; [exact Hn|]. split; [exact Hl|].
  split; [apply delta_mb_nonneg|]. split; [apply delta_mb_nonneg|].
  destruct (disk_io_counters r), (last_disk m); simpl;
    split; try reflexivity; apply delta_mb_nonneg.
Qed.

Lemma rate_nonnegative_iff_counter_did_not_decrease_witness :
  exists net lastn,
    net_io_counters Run.tick1 = Some net /\ last_net Run.fresh = Some lastn /\
    0 <= last (network_sent (snd (collect_data false Run.tick1 Run.fresh))) 0.
Proof.
  destruct (rate_nonnegative_iff_counter_did_not_decrease
              false Run.tick1 Run.fresh
              (m' := snd (collect_data false Run.tick1 Run.fresh)) eq_refl)
    as (net & lastn & Hn & Hl & Hs & _).
  exists net, lastn. split; [exact Hn | split; [exact Hl|]].
  apply Hs.
  injection Hn as <-. injection Hl as <-. vm_compute. discriminate.
Defined.

(** C2, as stated, fails: the same byte deltas read two seconds after the
    previous snapshot are stored as 10 and 2, where the documented rule
    (delta per elapsed second) gives 5 and 1. *)
Lemma rate_ignores_elapsed_time :
  exists m',
    collect_data false Run.late_tick Run.fresh = (Return tt, m') /\
    elapsed_since_last_tick Run.late_tick Run.fresh == 2 /\
    last (disk_read m') 0 == 10 /\
    documented_rate (60 * Run.MiB) (50 * Run.MiB)
      (elapsed_since_last_tick Run.late_tick Run.fresh) == 5 /\
    ~ last (disk_read m') 0 ==
      documented_rate (60 * Run.MiB) (50 * Run.MiB)
        (elapsed_since_last_tick Run.late_tick Run.fresh).
Proof.
  exists (snd (collect_data false Run.late_tick Run.fresh)).
  split; [vm_compute; reflexivity|].
  repeat split; try (vm_compute; reflexivity).
  vm_compute. discriminate.
Qed.

Lemma documented_rate_one_second (current previous : Z) (elapsed : Q) :
  elapsed == 1 -> (previous <= current)%Z ->
  delta_mb current previous == documented_rate current previous elapsed.
Proof.
  intros He Hle. unfold documented_rate, delta_mb.
  rewrite He. rewrite Q.max_r.
  - field. discriminate.
  - unfold Qdiv, Qmult, Qinv, Qle, inject_Z; simpl. lia.
Qed.

(** C2, amended: on a tick that returns, each stored network rate is the
    byte delta since the previous read divided by [1024 * 1024], and so is
    each stored disk rate when the disk counters and their previous snapshot
    exist; the delta is neither divided by the elapsed time nor clamped.
    The stored value agrees with [max(0, delta / elapsed)] in MB/s when the
    tick took exactly one second and the counter did not decrease.  Byte
    deltas of 10 MiB read and 2 MiB written are stored as 10 and 2.  The
    network rule does not depend on the disk counters. *)
Theorem rate_is_byte_delta_in_mib G r m m' :
  collect_data G r m = (Return tt, m') ->
  exists net lastn,
    net_io_counters r = Some net /\ last_net m = Some lastn /\
    last (network_sent m') 0 = delta_mb (bytes_sent net) (bytes_sent lastn) /\
    last (network_recv m') 0 = delta_mb (bytes_recv net) (bytes_recv lastn) /\
    (elapsed_since_last_tick r m == 1 ->
       ((bytes_sent lastn <= bytes_sent net)%Z ->
          last (network_sent m') 0 ==
          documented_rate (bytes_sent net) (bytes_sent lastn)
            (elapsed_since_last_tick r m)) /\
       ((bytes_recv lastn <= bytes_recv net)%Z ->
          last (network_recv m') 0 ==
          documented_rate (bytes_recv net) (bytes_recv lastn)
            (elapsed_since_last_tick r m))) /\
    (forall disk lastd,
       disk_io_counters r = Some disk -> last_disk m = Some lastd ->
       last (disk_read m') 0 = delta_mb (read_bytes disk) (read_bytes lastd) /\
       last (disk_write m') 0 = delta_mb (write_bytes disk) (write_bytes lastd) /\
       (elapsed_since_last_tick r m == 1 ->
          ((read_bytes lastd <= read_bytes disk)%Z ->
             last (disk_read m') 0 ==
             documented_rate (read_bytes disk) (read_bytes lastd)
               (elapsed_since_last_tick r m)) /\
          ((write_bytes lastd <= write_bytes disk)%Z ->
             last (disk_write m') 0 ==
             documented_rate (write_bytes disk) (write_bytes lastd)
               (elapsed_since_last_tick r m))) /\
       ((read_bytes disk - read_bytes lastd = 10 * (1024 * 1024))%Z ->
          last (disk_read m') 0 == 10) /\
       ((write_bytes disk - write_bytes lastd = 2 * (1024 * 1024))%Z ->
          last (disk_write m') 0 == 2)).
Proof.
  intros H.
  destruct (collect_data_inv _ _ _ H) as (net & lastn & Hn & Hl & Happ).
  destruct (appended_last_rates Happ) as (Hdr & Hdw & Hns & Hnr).
  exists net, lastn. rewrite Hns, Hnr.
  split; [exact Hn|]. split; [exact Hl|].
  split; [reflexivity|]. split; [reflexivity|]. split.
  - intros He. split; intros; apply documented_rate_one_second; assumption.
  - intros disk lastd Hd Hld.
    unfold disk_rates in Hdr, Hdw. rewrite Hd, Hld in Hdr, Hdw.
    simpl in Hdr, Hdw. rewrite Hdr, Hdw.
    split; [reflexivity|]. split; [reflexivity|]. split; [|split].
    + intros He. split; intros; apply documented_rate_one_second; assumption.
    + intros E. exact (delta_mb_mib _ _ 10 E).
    + intros E. exact (delta_mb_mib _ _ 2 E).
Qed.

Lemma rate_is_byte_delta_in_mib_witness :
  last (disk_read (snd (collect_data false Run.tick1 Run.fresh))) 0 == 10 /\
  last (disk_write (snd (collect_data false Run.tick1 Run.fresh))) 0 == 2 /\
  last (network_sent
          (snd (collect_data false (Run.reading 101 None (Run.net (53 * Run.MiB) 0))
                  Run.fresh))) 0
  = delta_mb (53 * Run.MiB) (50 * Run.MiB).
Proof.
  assert (Hrun : collect_data false Run.tick1 Run.fresh
                 = (Return tt, snd (collect_data false Run.tick1 Run.fresh)))
    by (vm_compute; reflexivity).
  assert (Hrun' : collect_data false
                    (Run.reading 101 None (Run.net (53 * Run.MiB) 0)) Run.fresh
                  = (Return tt,
                     snd (collect_data false
                            (Run.reading 101 None (Run.net (53 * Run.MiB) 0))
                            Run.fresh)))
    by (vm_compute; reflexivity).
  destruct (@rate_is_byte_delta_in_mib false Run.tick1 Run.fresh _ Hrun)
    as (net & lastn & _ & _ & _ & _ & _ & Hdisk).
  destruct (Hdisk {| read_bytes := 60 * Run.MiB; write_bytes := 52 * Run.MiB |}
                  {| read_bytes := 50 * Run.MiB; write_bytes := 50 * Run.MiB |}
                  eq_refl eq_refl) as (_ & _ & _ & Hr & Hw).
  destruct (@rate_is_byte_delta_in_mib false
              (Run.reading 101 None (Run.net (53 * Run.MiB) 0)) Run.fresh _ Hrun')
    as (net' & lastn' & Hn' & Hl' & Hs' & _).
  injection Hn' as <-. injection Hl' as <-.
  split; [apply Hr; reflexivity|]. split; [apply Hw; reflexivity | exact Hs'].
Defined.

(** C3, as stated, fails: on the first tick after construction the stored
    disk read rate is the delta since the counters read by [__init__]
    (10 MiB here), not 0. *)
Lemma first_tick_rate_is_not_zero :
  exists m',
    timestamps Run.fresh = [] /\
    collect_data false Run.tick1 Run.fresh = (Return tt, m') /\
    disk_read m' = [delta_mb (60 * Run.MiB) (50 * Run.MiB)] /\
    ~ last (disk_read m') 0 == 0.
Proof.
  exists (snd (collect_data false Run.tick1 Run.fresh)).
  split; [reflexivity|]. split; [vm_compute; reflexivity|].
  split; [reflexivity|]. vm_compute. discriminate.
Qed.

(** C3, amended: in the sample of a tick that returned, the two disk rates
    are exactly 0 when the disk counters are unavailable (the current read
    or the stored snapshot is [None]); otherwise each rate, disk or network,
    is the delta since the previous snapshot and is 0 exactly when its
    counter did not move.  This covers the first tick, whose previous
    snapshot is the one read at construction. *)
Theorem disk_rates_zero_when_counters_unavailable G r m m' :
  collect_data G r m = (Return tt, m') ->
  (disk_io_counters r = None \/ last_disk m = None ->
     disk_read m' = disk_read m ++ [0] /\ disk_write m' = disk_write m ++ [0]) /\
  (forall disk lastd,
     disk_io_counters r = Some disk -> last_disk m = Some lastd ->
     (last (disk_read m') 0 == 0 <-> read_bytes disk = read_bytes lastd) /\
     (last (disk_write m') 0 == 0 <-> write_bytes disk = write_bytes lastd)) /\
  (exists net lastn,
     net_io_counters r = Some net /\ last_net m = Some lastn /\
     (last (network_sent m') 0 == 0 <-> bytes_sent net = bytes_sent lastn) /\
     (last (network_recv m') 0 == 0 <-> bytes_recv net = bytes_recv lastn)).
Proof.
  intros H.
  destruct (collect_data_inv _ _ _ H) as (net & lastn & Hn & Hl & Happ).
  destruct (appended_last_rates Happ) as (Hdr & Hdw & Hns & Hnr).
  split; [|split].
  - intros Hnone. rewrite (app_disk_read Happ), (app_disk_write Happ).
    unfold disk_rates.
    destruct Hnone as [-> | ->]; [|destruct (disk_io_counters r)]; split; reflexivity.
  - intros disk lastd Hd Hld. rewrite Hdr, Hdw. unfold disk_rates.
    rewrite Hd, Hld. simpl. split; apply delta_mb_zero.
  - exists net, lastn. rewrite Hns, Hnr.
    split; [exact Hn|]. split; [exact Hl|]. split; apply delta_mb_zero.
Qed.

Lemma disk_rates_zero_when_counters_unavailable_witness :
  disk_read (snd (collect_data false (Run.reading 101 None (Run.net 0 0)) Run.fresh))
    = [0] /\
  disk_write (snd (collect_data false (Run.reading 101 None (Run.net 0 0)) Run.fresh))
    = [0].
Proof.
  destruct (disk_rates_zero_when_counters_unavailable
              false (Run.reading 101 None (Run.net 0 0)) Run.fresh
              (m' := snd (collect_data false (Run.reading 101 None (Run.net 0 0))
                            Run.fresh)) eq_refl)
    as [Hz _].
  exact (Hz (or_introl eq_refl)).
Defined.

(** ** Sensor failures *)

(** With the network counters at hand, a tick returns and appends a full
    sample for every behaviour of the temperature sensor, the GPU backend
    and the disk counters. *)
Lemma collect_data_survives_other_failures G r m net lastn :
  net_io_counters r = Some net -> last_net m = Some lastn ->
  exists m', collect_data G r m = (Return tt, m') /\ (aligned m -> aligned m').
Proof.
  intros Hn Hl. destruct (collect_data_returns G r m Hn Hl) as (m' & Hrun & Happ).
  exists m'. split; [exact Hrun | exact (appended_aligned Happ)].
Qed.

Lemma tick_without_network_raises G r m :
  net_io_counters r = None \/ last_net m = None ->
  exists m', collect_data G r m = (Raise AttributeError, m').
Proof.
  run_collect G r m; simpl; intros [Hnone | Hnone]; try discriminate;
    eexists; reflexivity.
Qed.

(** C5 (the code departs from it): when [psutil.net_io_counters()] returns
    [None], or the snapshot taken at construction is [None], the tick raises
    [AttributeError] after it has appended to five of the eleven columns:
    the sample is incomplete and the columns no longer have equal
    lengths. *)
Theorem collect_data_raises_without_network G r m :
  net_io_counters r = None \/ last_net m = None ->
  exists m',
    collect_data G r m = (Raise AttributeError, m') /\
    List.length (timestamps m') = S (List.length (timestamps m)) /\
    List.length (cpu_percent m') = S (List.length (cpu_percent m)) /\
    List.length (memory_percent m') = S (List.length (memory_percent m)) /\
    List.length (disk_read m') = S (List.length (disk_read m)) /\
    List.length (disk_write m') = S (List.length (disk_write m)) /\
    network_sent m' = network_sent m /\ network_recv m' = network_recv m /\
    cpu_temp m' = cpu_temp m /\ gpu_util m' = gpu_util m /\
    gpu_temp m' = gpu_temp m /\ gpu_memory m' = gpu_memory m.
Proof.
  run_collect G r m; simpl; intros [Hnone | Hnone]; try discriminate;
    (eexists; split; [reflexivity|]);
    simpl; rewrite ?length_app; simpl; repeat split; try reflexivity; lia.
Qed.

Lemma collect_data_raises_without_network_witness :
  fst (collect_data false Run.no_network Run.fresh) = Raise AttributeError /\
  List.length (timestamps (snd (collect_data false Run.no_network Run.fresh))) = 1%nat /\
  List.length (network_sent (snd (collect_data false Run.no_network Run.fresh))) = 0%nat.
Proof.
  destruct (collect_data_raises_without_network false Run.no_network Run.fresh
              (or_introl eq_refl))
    as (m' & Hrun & Hts & _ & _ & _ & _ & Hns & _).
  rewrite Hrun. simpl. rewrite Hts, Hns. repeat split.
Defined.

(** ** The detailed table *)

Lemma index_nth (l : list Q) (i : nat) :
  (i < List.length l)%nat -> index l i = Return (nth i l 0).
Proof.
  intros H. unfold index. rewrite (nth_error_nth' l 0 H). reflexivity.
Qed.

Lemma detail_record_row_at self i :
  aligned self -> (i < List.length (timestamps self))%nat ->
  detail_record self i = Return (row_at self i).
Proof.
  intros (H1 & H2 & H3 & H4 & H5 & H6 & _) Hi. unfold detail_record, row_at.
  rewrite !index_nth by congruence. reflexivity.
Qed.

Lemma traverse_detail_records self (l : list nat) :
  aligned self -> Forall (fun i => (i < List.length (timestamps self))%nat) l ->
  traverse (detail_record self) l = Return (map (row_at self) l).
Proof.
  intros Hal. induction 1 as [|i l Hi _ IH]; simpl.
  - reflexivity.
  - rewrite (detail_record_row_at Hal Hi), IH. reflexivity.
Qed.

Lemma seq_below (a len n : nat) :
  (a + len <= n)%nat -> Forall (fun i => (i < n)%nat) (seq a len).
Proof.
  intros H. apply Forall_forall. intros i Hi. apply in_seq in Hi. lia.
Qed.

Lemma excerpt_indices_NoDup n : NoDup (excerpt_indices n).
Proof.
  unfold excerpt_indices. destruct (Nat.ltb_spec 20 n) as [Hn|Hn].
  - apply NoDup_app; try apply seq_NoDup.
    intros i Hi Hi'. apply in_seq in Hi. apply in_seq in Hi'. lia.
  - rewrite app_nil_r. apply seq_NoDup.
Qed.

Lemma detailed_data_rows self :
  aligned self ->
  detailed_data self =
    Return (DetailHeader ::
            map (row_at self) (seq 0 (Nat.min 10 (List.length (timestamps self)))) ++
            (if (20 <? List.length (timestamps self))%nat
             then Ellipsis ::
                  map (row_at self) (seq (List.length (timestamps self) - 10) 10)
             else [])).
Proof.
  intros Hal. unfold detailed_data, range.
  set (n := List.length (timestamps self)).
  rewrite (traverse_detail_records Hal (l := seq 0 (Nat.min 10 n - 0)))
    by (apply seq_below; lia).
  unfold obind at 1. rewrite Nat.sub_0_r.
  destruct (Nat.ltb_spec 20 n) as [Hn|Hn].
  - replace (Nat.max 10 (n - 10)) with (n - 10)%nat by lia.
    replace (n - (n - 10))%nat with 10%nat by lia.
    rewrite (traverse_detail_records Hal (l := seq (n - 10) 10))
      by (apply seq_below; lia).
    reflexivity.
  - rewrite app_nil_r. reflexivity.
Qed.

(** C7: the detailed table is the header, the rows of the first
    [min(10, n)] samples and, exactly when [n > 20], an ellipsis row
    followed by the rows of the last ten samples; no sample index is shown
    twice.  For 25 samples these are samples 0-9, the ellipsis and samples
    15-24; for 20 samples or fewer only the leading rows appear. *)
Theorem detailed_data_excerpt self :
  aligned self ->
  let n := List.length (timestamps self) in
  detailed_data self =
    Return (DetailHeader :: map (row_at self) (seq 0 (Nat.min 10 n)) ++
            (if (20 <? n)%nat
             then Ellipsis :: map (row_at self) (seq (n - 10) 10)
             else [])) /\
  NoDup (excerpt_indices n) /\
  (n = 25%nat ->
   detailed_data self =
     Return (DetailHeader :: map (row_at self) [0; 1; 2; 3; 4; 5; 6; 7; 8; 9]%nat ++
             Ellipsis ::
             map (row_at self) [15; 16; 17; 18; 19; 20; 21; 22; 23; 24]%nat)) /\
  ((n <= 20)%nat ->
   detailed_data self =
     Return (DetailHeader :: map (row_at self) (seq 0 (Nat.min 10 n)))).
Proof.
  intros Hal n. pose proof (detailed_data_rows Hal) as Hmain. fold n in Hmain.
  split; [exact Hmain|]. split; [apply excerpt_indices_NoDup|]. split.
  - intros Hn. rewrite Hmain, Hn. reflexivity.
  - intros Hn. rewrite Hmain.
    destruct (Nat.ltb_spec 20 n); [lia|]. rewrite app_nil_r. reflexivity.
Qed.

Lemma detailed_data_excerpt_witness :
  aligned (Run.after_ticks 25) /\
  List.length (timestamps (Run.after_ticks 25)) = 25%nat /\
  detailed_data (Run.after_ticks 25) =
    Return (DetailHeader ::
            map (row_at (Run.after_ticks 25)) [0; 1; 2; 3; 4; 5; 6; 7; 8; 9]%nat ++
            Ellipsis ::
            map (row_at (Run.after_ticks 25))
              [15; 16; 17; 18; 19; 20; 21; 22; 23; 24]%nat).
Proof.
  assert (Hal : aligned (Run.after_ticks 25)) by (vm_compute; repeat split).
  split; [exact Hal|]. split; [vm_compute; reflexivity|].
  destruct (detailed_data_excerpt Hal) as (_ & _ & H25 & _).
  apply H25. vm_compute. reflexivity.
Defined.

(** ** The summary table *)

Lemma any_positive_iff (column : list Q) :
  any_positive column = true <-> exists t, In t column /\ 0 < t.
Proof.
  unfold any_positive. rewrite existsb_exists.
  split; intros (t & Hin & Ht); exists t; split; try assumption.
  - unfold Qlt_bool in Ht. apply negb_true_iff in Ht.
    apply Qnot_le_lt. intros Hle. apply Qle_bool_iff in Hle. congruence.
  - unfold Qlt_bool. apply negb_true_iff.
    destruct (Qle_bool t 0) eqn:E; [|reflexivity].
    apply Qle_bool_iff in E. exfalso. exact (Qlt_not_le _ _ Ht E).
Qed.

Lemma any_positive_all_fallback (column : list Q) :
  (forall t, In t column -> t == 0) -> any_positive column = false.
Proof.
  intros Hall. destruct (any_positive column) eqn:E; [|reflexivity].
  apply any_positive_iff in E. destruct E as (t & Hin & Ht).
  rewrite (Hall t Hin) in Ht. discriminate.
Qed.

(** The statistics count the fallback zeros as values: two of three
    samples at the sentinel give the mean 20, not 60, and the minimum 0. *)
Example stat_row_counts_fallback_values :
  stat_row (fun v => v) "CPU Temperature (°C)" [0; 60; 0] =
  Return (Stat "CPU Temperature (°C)" (np_mean [0; 60; 0]) 0 60
               (np_var [0; 60; 0])) /\
  np_mean [0; 60; 0] == 20.
Proof. split; [vm_compute; reflexivity | vm_compute; reflexivity]. Qed.

(** C6, as stated, fails: after a tick with an idle GPU at 40 degrees the
    GPU temperature column holds a real reading, yet the table has no GPU
    temperature row, because the GPU rows are decided by the utilisation
    column alone; and a CPU sensor reading below zero leaves the CPU
    temperature row out as well. *)
Lemma rows_omitted_despite_real_readings :
  let m := snd (collect_data true Run.idle_gpu Run.fresh) in
  gpu_util m = [0] /\ gpu_temp m = [40] /\ cpu_temp m = [-5] /\
  exists rows,
    summary_data true (fun v => v) m = Return rows /\
    has_row "GPU Temperature (°C)" rows = false /\
    has_row "CPU Temperature (°C)" rows = false.
Proof.
  simpl. repeat (split; [vm_compute; reflexivity|]).
  exists (match summary_data true (fun v => v)
                  (snd (collect_data true Run.idle_gpu Run.fresh)) with
          | Return rows => rows
          | Raise _ => []
          end).
  repeat split; vm_compute; reflexivity.
Qed.

Ltac nonempty_column l x H :=
  destruct l as [|x l]; [simpl in H; discriminate H|].

Ltac pick_row Hin :=
  cbn [In app] in Hin;
  repeat (destruct Hin as [Hin|Hin]; [try discriminate Hin|]);
  try contradiction.

(** C6, amended: for a store with at least one sample, the summary table
    has the CPU temperature row exactly when some collected CPU temperature
    is [> 0] (so not when every value is the sentinel 0), and it has the
    three GPU rows, all together, exactly when GPU support is available and
    some collected GPU utilisation is [> 0]; a row that is present holds
    the mean, minimum, maximum and standard deviation of the metric's whole
    column, the fallback zeros counted as values. *)
Theorem summary_data_optional_rows G sqrt self :
  aligned self -> timestamps self <> [] ->
  exists rows,
    summary_data G sqrt self = Return rows /\
    has_row "CPU Temperature (°C)" rows = any_positive (cpu_temp self) /\
    has_row "GPU Utilization (%)" rows = (G && any_positive (gpu_util self)) /\
    has_row "GPU Memory (%)" rows = (G && any_positive (gpu_util self)) /\
    has_row "GPU Temperature (°C)" rows = (G && any_positive (gpu_util self)) /\
    ((forall t, In t (cpu_temp self) -> t == 0) ->
     has_row "CPU Temperature (°C)" rows = false) /\
    (let n := List.length (timestamps self) in
     stats_over sqrt rows "CPU Temperature (°C)" (cpu_temp self) n /\
     stats_over sqrt rows "GPU Utilization (%)" (gpu_util self) n /\
     stats_over sqrt rows "GPU Memory (%)" (gpu_memory self) n /\
     stats_over sqrt rows "GPU Temperature (°C)" (gpu_temp self) n).
Proof.
  intros Hal Hne.
  destruct self as [d i ts cp mp dr dw ns nr ct gu gt gm ln ld st].
  destruct Hal as (H1 & H2 & H3 & H4 & H5 & H6 & H7 & H8 & H9 & H10).
  cbn [timestamps cpu_percent memory_percent disk_read disk_write network_sent
       network_recv cpu_temp gpu_util gpu_temp gpu_memory] in *.
  destruct ts as [|t0 ts]; [congruence|].
  nonempty_column cp x1 H1. nonempty_column mp x2 H2. nonempty_column dr x3 H3.
  nonempty_column dw x4 H4. nonempty_column ns x5 H5. nonempty_column nr x6 H6.
  nonempty_column ct c0 H7. nonempty_column gu u0 H8. nonempty_column gt x9 H9.
  nonempty_column gm x10 H10.
  cbv beta iota zeta delta
    [summary_data stat_row np_min np_max np_std obind
     cpu_percent memory_percent disk_read disk_write network_sent network_recv
     cpu_temp gpu_util gpu_temp gpu_memory].
  assert (Hfb : (forall t, In t (c0 :: ct) -> t == 0) ->
                any_positive (c0 :: ct) = false)
    by apply any_positive_all_fallback.
  destruct (any_positive (c0 :: ct)) eqn:Ect;
    destruct G; destruct (any_positive (u0 :: gu)) eqn:Egu;
    cbv beta iota delta [andb];
    (eexists; split; [reflexivity|]);
    (split; [reflexivity|]); (split; [reflexivity|]);
    (split; [reflexivity|]); (split; [reflexivity|]);
    (split; [first [reflexivity | exact Hfb]|]);
    unfold stats_over, np_mean;
    (split; [|split; [|split]]);
    intros a mn mx sd Hin; pick_row Hin;
    injection Hin as <- <- <- <-;
    repeat split;
    first [rewrite <- H7; reflexivity | rewrite <- H8; reflexivity
          | rewrite <- H9; reflexivity | rewrite <- H10; reflexivity].
Qed.

Lemma summary_data_optional_rows_witness :
  exists rows,
    summary_data true (fun v => v)
      (snd (collect_data true Run.busy_gpu Run.fresh)) = Return rows /\
    has_row "CPU Temperature (°C)" rows = true /\
    has_row "GPU Memory (%)" rows = true.
Proof.
  assert (Hal : aligned (snd (collect_data true Run.busy_gpu Run.fresh)))
    by (vm_compute; repeat split).
  assert (Hne : timestamps (snd (collect_data true Run.busy_gpu Run.fresh)) <> [])
    by (vm_compute; discriminate).
  destruct (summary_data_optional_rows true (fun v => v) Hal Hne)
    as (rows & Hrows & Hcpu & _ & Hmem & _).
  exists rows. split; [exact Hrows|]. rewrite Hcpu, Hmem.
  split; vm_compute; reflexivity.
Defined.

(** ** Building the report *)

Lemma summary_data_returns G sqrt self :
  aligned self -> timestamps self <> [] ->
  exists rows, summary_data G sqrt self = Return rows.
Proof.
  intros Hal Hne.
  destruct self as [d i ts cp mp dr dw ns nr ct gu gt gm ln ld st].
  destruct Hal as (H1 & H2 & H3 & H4 & H5 & H6 & H7 & H8 & H9 & H10).
  cbn [timestamps cpu_percent memory_percent disk_read disk_write network_sent
       network_recv cpu_temp gpu_util gpu_temp gpu_memory] in *.
  destruct ts as [|t0 ts]; [congruence|].
  nonempty_column cp x1 H1. nonempty_column mp x2 H2. nonempty_column dr x3 H3.
  nonempty_column dw x4 H4. nonempty_column ns x5 H5. nonempty_column nr x6 H6.
  nonempty_column ct c0 H7. nonempty_column gu u0 H8. nonempty_column gt x9 H9.
  nonempty_column gm x10 H10.
  cbv beta iota zeta delta
    [summary_data stat_row np_min np_max np_std obind
     cpu_percent memory_percent disk_read disk_write network_sent network_recv
     cpu_temp gpu_util gpu_temp gpu_memory].
  destruct (any_positive (c0 :: ct)); destruct G;
    destruct (any_positive (u0 :: gu)); cbv beta iota delta [andb];
    eexists; reflexivity.
Qed.

Lemma exists_file_written name c w :
  exists_file name (write_file name c w) = true.
Proof. unfold exists_file, write_file. simpl. rewrite String.eqb_refl. reflexivity. Qed.

Lemma exists_file_removed name w :
  exists_file name (remove_file name w) = false.
Proof.
  unfold exists_file, remove_file. simpl.
  induction (files w) as [|[n c] fs IH]; simpl; [reflexivity|].
  destruct (String.eqb name n) eqn:E; simpl; [exact IH|].
  rewrite E. exact IH.
Qed.

(** When both files can be written the report is built and the chart image
    is gone afterwards. *)
Lemma chart_file_removed_after_success G sqrt writable self filename w :
  aligned self -> timestamps self <> [] ->
  writable graph_file = true -> writable filename = true ->
  exists w',
    generate_pdf_report G sqrt writable self filename w = (Return tt, w') /\
    exists_file graph_file w' = false.
Proof.
  intros Hal Hne Hg Hf.
  destruct (summary_data_returns G sqrt Hal Hne) as (rows & Hrows).
  pose proof (detailed_data_rows Hal) as Hdet.
  unfold generate_pdf_report, print, save, bind, modify, lift, get, ret, raise.
  rewrite Hrows, Hg, Hdet, Hf. cbv beta iota.
  match goal with
  | |- context [exists_file graph_file ?x] => destruct (exists_file graph_file x) eqn:E
  end.
  - eexists. split; [reflexivity|].
    unfold exists_file. cbn [files]. apply exists_file_removed.
  - eexists. split; [reflexivity|].
    unfold exists_file in *. cbn [files]. exact E.
Qed.

(** C9 (the code departs from it): when the chart image was written and
    [doc.build] then fails because the output path cannot be written, the
    call raises before it reaches the removal, and the chart image stays on
    disk. *)
Theorem chart_file_left_behind_when_build_fails G sqrt writable self filename w :
  aligned self -> timestamps self <> [] ->
  writable graph_file = true -> writable filename = false ->
  exists w',
    generate_pdf_report G sqrt writable self filename w = (Raise OSError, w') /\
    exists_file graph_file w' = true.
Proof.
  intros Hal Hne Hg Hf.
  destruct (summary_data_returns G sqrt Hal Hne) as (rows & Hrows).
  pose proof (detailed_data_rows Hal) as Hdet.
  unfold generate_pdf_report, print, save, bind, modify, lift, get, ret, raise.
  rewrite Hrows, Hg, Hdet, Hf.
  eexists. split; [reflexivity|]. apply exists_file_written.
Qed.

Lemma chart_file_left_behind_when_build_fails_witness :
  exists w',
    generate_pdf_report false (fun v => v) Run.only_chart_writable
      (Run.after_ticks 3) "system_monitor_report.pdf" Run.empty_world
    = (Raise OSError, w') /\
    exists_file graph_file Run.empty_world = false /\
    exists_file graph_file w' = true.
Proof.
  assert (Hal : aligned (Run.after_ticks 3)) by (vm_compute; repeat split).
  assert (Hne : timestamps (Run.after_ticks 3) <> []) by (vm_compute; discriminate).
  destruct (chart_file_left_behind_when_build_fails false (fun v => v)
              Run.only_chart_writable "system_monitor_report.pdf"
              Run.empty_world Hal Hne eq_refl eq_refl)
    as (w' & Hrun & Hleft).
  exists w'. split; [exact Hrun|]. split; [reflexivity | exact Hleft].
Defined.

(** ** The collection loop *)

Lemma Qlt_bool_true (x y : Q) : x < y -> Qlt_bool x y = true.
Proof.
  intros H. unfold Qlt_bool. destruct (Qle_bool y x) eqn:E; [|reflexivity].
  apply Qle_bool_iff in E. exfalso. exact (Qlt_not_le _ _ H E).
Qed.

Lemma Qlt_bool_false (x y : Q) : y <= x -> Qlt_bool x y = false.
Proof.
  intros H. unfold Qlt_bool. apply Qle_bool_iff in H. rewrite H. reflexivity.
Qed.

(** Returning or raising, a tick has appended its timestamp and left the
    configuration alone. *)
Lemma collect_data_timestamps G r m :
  timestamps (snd (collect_data G r m)) = timestamps m ++ [time_time r - start_time m] /\
  duration (snd (collect_data G r m)) = duration m.
Proof. run_collect G r m; split; reflexivity. Qed.

(** A loop that ends with an exception has been through a tick. *)
Lemma data_collection_loop_raise G t0 script :
  forall self e self',
    data_collection_loop G t0 script self = (Raise e, self') ->
    timestamps self' <> [].
Proof.
  induction script as [|[now r|] script IH]; intros self e self' H; simpl in H.
  - discriminate.
  - unfold bind, get, ret in H.
    destruct (Qlt_bool (now - t0) (duration self)); [|discriminate].
    destruct (collect_data G r self) as [[[]|e'] m1] eqn:Hc.
    + destruct (collect_data_timestamps G r self) as [Hts _].
      rewrite Hc in Hts. simpl in Hts.
      destruct script as [|[now' r'|] script'].
      * discriminate.
      * exact (IH _ _ _ H).
      * discriminate.
    + injection H as _ <-.
      destruct (collect_data_timestamps G r self) as [Hts _].
      rewrite Hc in Hts. simpl in Hts. rewrite Hts.
      intros Hnil. apply app_eq_nil in Hnil. destruct Hnil. discriminate.
  - discriminate.
Qed.

Lemma last_say line w : last (console (say line w)) ""%string = line.
Proof. unfold say, print, modify. simpl. apply last_last. Qed.

Lemma files_say line w : files (say line w) = files w.
Proof. reflexivity. Qed.

(** C8: when the loop of [start] ends with an empty store, [start] returns
    normally without calling the report builder: no file is written and the
    last console line is the notice that no data was collected. *)
Theorem empty_store_skips_report G sqrt writable t0 script self w how self' :
  data_collection_loop G t0 script self = (Return how, self') ->
  how <> ScriptExhausted ->
  timestamps self' = [] ->
  exists w',
    start G sqrt writable t0 script self w = Some (Return tt, self', w') /\
    files w' = files w /\
    last (console w') ""%string = "No data collected. Report not generated."%string.
Proof.
  intros Hloop Hhow Hempty. unfold start. rewrite Hloop, Hempty.
  destruct how; try congruence;
    (eexists; split; [reflexivity | split; [reflexivity | apply last_say]]).
Qed.

Lemma empty_store_skips_report_witness :
  exists w',
    start false (fun v => v) Run.all_writable 100 [KeyboardInterrupt]
      Run.fresh Run.empty_world = Some (Return tt, Run.fresh, w') /\
    files w' = [] /\
    last (console w') ""%string = "No data collected. Report not generated."%string.
Proof.
  assert (Hhow : Interrupted <> ScriptExhausted) by discriminate.
  exact (empty_store_skips_report false (fun v => v) Run.all_writable 100
           [KeyboardInterrupt] Run.fresh Run.empty_world
           (how := Interrupted) (self' := Run.fresh) eq_refl Hhow eq_refl).
Defined.

(** An exception of the loop is the only other way out of [start], and it
    never leaves the store empty. *)
Lemma start_empty_store G sqrt writable t0 script self w o self' w' :
  start G sqrt writable t0 script self w = Some (o, self', w') ->
  timestamps self' = [] ->
  o = Return tt /\ files w' = files w.
Proof.
  unfold start. intros H Hempty.
  destruct (data_collection_loop G t0 script self) as [[how|e] m1] eqn:Hloop.
  - destruct how;
      try (destruct (0 <? List.length (timestamps m1))%nat eqn:E;
           [ destruct (generate_pdf_report _ _ _ _ _ _) as [o1 w1];
             injection H as <- <- <-; rewrite Hempty in E; discriminate
           | injection H as <- <- <-; split; reflexivity ]).
    discriminate.
  - injection H as <- <- <-.
    exfalso. exact (data_collection_loop_raise _ _ _ _ Hloop Hempty).
Qed.

(** A tick without network counters ends [start] with the exception: the
    loop is left and no report is attempted. *)
Lemma start_aborts_without_network G sqrt writable t0 now r script self w :
  now - t0 < duration self ->
  net_io_counters r = None ->
  exists self',
    start G sqrt writable t0 (Tick now r :: script) self w
    = Some (Raise AttributeError, self',
            announce w).
Proof.
  intros Hlt Hnone.
  destruct (tick_without_network_raises G r self (or_introl Hnone))
    as (m1 & Hrun).
  exists m1. unfold start. simpl. unfold bind at 1, get at 1.
  rewrite (Qlt_bool_true Hlt). unfold bind at 1. rewrite Hrun. reflexivity.
Qed.

(** C4, as stated, fails: with a duration of 0 the loop test fails at once,
    no sample is collected and no report is attempted. *)
Lemma zero_duration_collects_no_sample :
  exists self' w',
    start false (fun v => v) Run.all_writable 100
      [Tick 100 Run.tick1; Tick (2203 # 20) (Run.nth_tick 2)]
      Run.zero_duration Run.empty_world
    = Some (Return tt, self', w') /\
    timestamps self' = [] /\
    files w' = [] /\
    last (console w') ""%string = "No data collected. Report not generated."%string.
Proof.
  do 2 eexists. split; [vm_compute; reflexivity|].
  repeat split.
Qed.

(** C4, amended: from an empty store, a duration of 0 makes the loop test
    fail before any tick, so no sample is produced and [start] prints the
    no-data notice instead of building a report; a positive duration, also
    one shorter than the interval, gives exactly one sample before the
    report is built, provided the first loop test is reached less than
    [duration] seconds after the loop started, the second one not, and the
    tick returns. *)
Theorem minimum_tick_of_the_loop G sqrt writable t0 self w :
  timestamps self = [] ->
  (forall now r script,
     duration self == 0 -> t0 <= now ->
     exists w',
       start G sqrt writable t0 (Tick now r :: script) self w
       = Some (Return tt, self, w') /\
       files w' = files w /\
       last (console w') ""%string
       = "No data collected. Report not generated."%string) /\
  (forall now r now' r' script net lastn,
     now - t0 < duration self -> duration self <= now' - t0 ->
     net_io_counters r = Some net -> last_net self = Some lastn ->
     exists self',
       collect_data G r self = (Return tt, self') /\
       List.length (timestamps self') = 1%nat /\
       start G sqrt writable t0 (Tick now r :: Tick now' r' :: script) self w
       = let report :=
           generate_pdf_report G sqrt writable self' "system_monitor_report.pdf"
             (say "Data collection complete!"
                (announce w)) in
         Some (fst report, self', snd report)).
Proof.
  intros Hempty. split.
  - intros now r script Hd Hle.
    assert (Htest : Qlt_bool (now - t0) (duration self) = false).
    { apply Qlt_bool_false. rewrite Hd. unfold Qminus.
      rewrite <- (Qplus_opp_r t0). apply Qplus_le_l. exact Hle. }
    unfold start. simpl. unfold bind at 1, get at 1. rewrite Htest.
    unfold ret. rewrite Hempty.
    eexists. split; [reflexivity | split; [reflexivity | apply last_say]].
  - intros now r now' r' script net lastn Hlt Hge Hn Hl.
    destruct (collect_data_returns G r self Hn Hl) as (m1 & Hrun & Happ).
    exists m1. split; [exact Hrun|].
    assert (Hlen : List.length (timestamps m1) = 1%nat).
    { rewrite (app_timestamps Happ), Hempty. reflexivity. }
    split; [exact Hlen|].
    unfold start. simpl. unfold bind at 1, get at 1.
    rewrite (Qlt_bool_true Hlt). unfold bind at 1. rewrite Hrun.
    unfold bind at 1, get at 1.
    rewrite (app_duration Happ), (Qlt_bool_false Hge). unfold ret.
    rewrite Hlen. cbv zeta. change (0 <? 1)%nat with true. cbv iota.
    destruct (generate_pdf_report _ _ _ _ _ _). reflexivity.
Qed.

Lemma minimum_tick_of_the_loop_witness :
  (exists w',
     start false (fun v => v) Run.all_writable 100
       [Tick 100 Run.tick1] Run.zero_duration Run.empty_world
     = Some (Return tt, Run.zero_duration, w') /\
     files w' = []) /\
  (exists self',
     collect_data false Run.tick1 Run.half_second = (Return tt, self') /\
     List.length (timestamps self') = 1%nat).
Proof.
  split.
  - destruct (minimum_tick_of_the_loop false (fun v => v) Run.all_writable 100
                Run.zero_duration Run.empty_world eq_refl) as [Hzero _].
    destruct (Hzero 100 Run.tick1 []) as (w' & Hrun & Hfiles & _).
    + vm_compute. reflexivity.
    + vm_compute. discriminate.
    + exists w'. split; [exact Hrun | exact Hfiles].
  - destruct (minimum_tick_of_the_loop false (fun v => v) Run.all_writable 100
                Run.half_second Run.empty_world eq_refl) as [_ Hpos].
    destruct (Hpos 100 Run.tick1 (2203 # 20) (Run.nth_tick 2) []
                {| bytes_sent := 53 * Run.MiB; bytes_recv := 51 * Run.MiB |}
                {| bytes_sent := 50 * Run.MiB; bytes_recv := 50 * Run.MiB |})
      as (self' & Hrun & Hlen & _).
    + vm_compute. reflexivity.
    + vm_compute. discriminate.
    + reflexivity.
    + reflexivity.
    + exists self'. split; [exact Hrun | exact Hlen].
Defined.

(** Along the loop of [start] the columns keep equal lengths, as long as no
    tick raises; a monitor fresh from [__init__] starts with all of them
    empty. *)
Lemma init_aligned d net disk now : aligned (init d net disk now).
Proof. repeat split. Qed.

Lemma data_collection_loop_aligned G t0 script :
  forall self how self',
    aligned self ->
    data_collection_loop G t0 script self = (Return how, self') ->
    aligned self'.
Proof.
  induction script as [|[now r|] script IH]; intros self how self' Hal H;
    simpl in H.
  - injection H as _ <-. exact Hal.
  - unfold bind at 1, get at 1 in H.
    destruct (Qlt_bool (now - t0) (duration self)).
    + unfold bind at 1 in H.
      destruct (collect_data G r self) as [[[]|e] m1] eqn:Hc; [|discriminate].
      destruct (collect_data_inv _ _ _ Hc) as (net & lastn & _ & _ & Happ).
      exact (IH _ _ _ (appended_aligned Happ Hal) H).
    + injection H as _ <-. exact Hal.
  - injection H as _ <-. exact Hal.
Qed.

(** Called directly on an empty store, the report builder raises at the
    first [np.min] before any file is written; [start] never does so. *)
Lemma generate_pdf_report_empty_store G sqrt writable self filename w :
  cpu_percent self = [] ->
  exists w',
    generate_pdf_report G sqrt writable self filename w = (Raise ValueError, w') /\
    files w' = files w.
Proof.
  intros Hempty.
  unfold generate_pdf_report, print, save, bind, modify, lift, get, ret, raise.
  unfold summary_data, stat_row. rewrite Hempty. cbv beta iota delta [np_min obind].
  eexists. split; reflexivity.
Qed.

(** * Further properties of the code *)

(** ** What the sensors contribute to a sample *)

Lemma or_zero_some (v : Q) : or_zero (Some v) == v.
Proof.
  unfold or_zero. destruct (Qeq_bool v 0) eqn:E; [|reflexivity].
  apply Qeq_bool_iff in E. symmetry. exact E.
Qed.

(** X1: the CPU temperature of a sample is the first reading of
    ['coretemp'] when the platform lists that sensor, else the first
    reading of ['cpu_thermal'], else the first reading of the first sensor
    of the dict. *)
Theorem recorded_cpu_temp_follows_sensor_priority G r m m' temps :
  collect_data G r m = (Return tt, m') ->
  sensors_temperatures r = Some temps ->
  (forall e es,
     dict_get "coretemp" temps = Some (e :: es) ->
     last (cpu_temp m') 0 == current e) /\
  (forall e es,
     dict_get "coretemp" temps = None ->
     dict_get "cpu_thermal" temps = Some (e :: es) ->
     last (cpu_temp m') 0 == current e) /\
  (forall name e es rest,
     dict_get "coretemp" temps = None ->
     dict_get "cpu_thermal" temps = None ->
     temps = (name, e :: es) :: rest ->
     last (cpu_temp m') 0 == current e).
Proof.
  intros H Hs.
  destruct (collect_data_inv _ _ _ H) as (net & lastn & _ & _ & Happ).
  rewrite (app_cpu_temp Happ), last_last. unfold get_cpu_temp. rewrite Hs.
  split; [|split].
  - intros e es ->. apply or_zero_some.
  - intros e es -> ->. apply or_zero_some.
  - intros name e es rest Hc Ht ->. rewrite Hc, Ht. apply or_zero_some.
Qed.

Lemma recorded_cpu_temp_follows_sensor_priority_witness :
  last (cpu_temp (snd (collect_data true Scene.two_sensors Run.fresh))) 0 == 48.
Proof.
  destruct (recorded_cpu_temp_follows_sensor_priority
              true Scene.two_sensors Run.fresh
              (m' := snd (collect_data true Scene.two_sensors Run.fresh))
              (temps := [("acpitz"%string, [{| current := 30 |}]);
                         ("coretemp"%string,
                          [{| current := 48 |}; {| current := 52 |}])])
              eq_refl eq_refl) as [Hcore _].
  exact (Hcore {| current := 48 |} [{| current := 52 |}] eq_refl).
Defined.

(** X2: the CPU temperature of a sample is the sentinel 0 when reading the
    sensors raises, when the platform lists no sensor, and when the sensor
    that has priority lists no reading, even if another sensor has one. *)
Theorem recorded_cpu_temp_falls_back_to_zero G r m m' :
  collect_data G r m = (Return tt, m') ->
  (sensors_temperatures r = None \/
   sensors_temperatures r = Some [] \/
   (exists temps,
      sensors_temperatures r = Some temps /\
      (dict_get "coretemp" temps = Some [] \/
       (dict_get "coretemp" temps = None /\ dict_get "cpu_thermal" temps = Some [])))) ->
  last (cpu_temp m') 0 = 0.
Proof.
  intros H Hs.
  destruct (collect_data_inv _ _ _ H) as (net & lastn & _ & _ & Happ).
  rewrite (app_cpu_temp Happ), last_last. unfold get_cpu_temp.
  destruct Hs as [-> | [-> | (temps & -> & [-> | [-> ->]])]]; reflexivity.
Qed.

Lemma recorded_cpu_temp_falls_back_to_zero_witness :
  last (cpu_temp (snd (collect_data true Scene.silent_coretemp Run.fresh))) 0 = 0.
Proof.
  apply (recorded_cpu_temp_falls_back_to_zero true Scene.silent_coretemp Run.fresh
           (m' := snd (collect_data true Scene.silent_coretemp Run.fresh)) eq_refl).
  right. right.
  exists [("coretemp"%string, []); ("acpitz"%string, [{| current := 30 |}])].
  split; [reflexivity | left; reflexivity].
Defined.

(** X3: the three GPU values of a sample come from the first GPU only
    (load and memory use as percentages), and all three are the sentinel 0
    when GPU support was not found at import, whatever the backend would
    answer, when the backend raises and when it lists no GPU. *)
Theorem recorded_gpu_values G r m m' :
  collect_data G r m = (Return tt, m') ->
  (G = false \/ getGPUs r = None \/ getGPUs r = Some [] ->
   last (gpu_util m') 0 = 0 /\ last (gpu_temp m') 0 = 0 /\
   last (gpu_memory m') 0 = 0) /\
  (forall gpu others,
     G = true -> getGPUs r = Some (gpu :: others) ->
     last (gpu_util m') 0 == load gpu * 100 /\
     last (gpu_temp m') 0 == temperature gpu /\
     last (gpu_memory m') 0 == memoryUtil gpu * 100).
Proof.
  intros H.
  destruct (collect_data_inv _ _ _ H) as (net & lastn & _ & _ & Happ).
  rewrite (app_gpu_util Happ), (app_gpu_temp Happ), (app_gpu_memory Happ).
  rewrite !last_last. unfold get_gpu_info. split.
  - intros [-> | [Hg | Hg]]; [repeat split | |];
      rewrite Hg; destruct G; repeat split.
  - intros gpu others -> Hg. rewrite Hg. simpl.
    repeat split; apply or_zero_some.
Qed.

Lemma recorded_gpu_values_witness :
  last (gpu_util (snd (collect_data false Run.busy_gpu Run.fresh))) 0 = 0 /\
  last (gpu_util (snd (collect_data true Run.busy_gpu Run.fresh))) 0 == 50.
Proof.
  split.
  - destruct (recorded_gpu_values false Run.busy_gpu Run.fresh
                (m' := snd (collect_data false Run.busy_gpu Run.fresh)) eq_refl)
      as [Hoff _].
    apply Hoff. left. reflexivity.
  - destruct (recorded_gpu_values true Run.busy_gpu Run.fresh
                (m' := snd (collect_data true Run.busy_gpu Run.fresh)) eq_refl)
      as [_ Hon].
    destruct (Hon {| load := 1 # 2; temperature := 60; memoryUtil := 1 # 4 |} []
                eq_refl eq_refl) as [Hu _].
    rewrite Hu. reflexivity.
Defined.

(** ** Counters along a run *)

Lemma np_sum_snoc (l : list Q) (x : Q) : np_sum (l ++ [x]) = np_sum l + x.
Proof. unfold np_sum. rewrite fold_left_app. reflexivity. Qed.

Lemma delta_mb_chain (a b c : Z) :
  delta_mb c a == delta_mb b a + delta_mb c b.
Proof.
  unfold delta_mb, Qdiv, Qmult, Qinv, Qplus, Qeq, inject_Z; simpl. lia.
Qed.

Lemma delta_mb_self (a : Z) : delta_mb a a == 0.
Proof. apply delta_mb_zero. reflexivity. Qed.

(** The disk snapshot is replaced only by a tick that read the counters
    while a snapshot was there. *)
Lemma collect_data_last_disk G r m :
  last_disk (snd (collect_data G r m)) =
  match disk_io_counters r, last_disk m with
  | Some disk, Some _ => Some disk
  | _, _ => last_disk m
  end.
Proof. run_collect G r m; reflexivity. Qed.

(** An invariant of the ticks that return is an invariant of the loop. *)
Lemma data_collection_loop_invariant G t0 (P : SystemMonitor -> Prop) :
  (forall r m m', P m -> collect_data G r m = (Return tt, m') -> P m') ->
  forall script self how self',
    P self ->
    data_collection_loop G t0 script self = (Return how, self') ->
    P self'.
Proof.
  intros Hstep. induction script as [|[now r|] script IH];
    intros self how self' HP H; simpl in H.
  - injection H as _ <-. exact HP.
  - unfold bind at 1, get at 1 in H.
    destruct (Qlt_bool (now - t0) (duration self)).
    + unfold bind at 1 in H.
      destruct (collect_data G r self) as [[[]|e] m1] eqn:Hc; [|discriminate].
      exact (IH _ _ _ (Hstep _ _ _ HP Hc) H).
    + injection H as _ <-. exact HP.
  - injection H as _ <-. exact HP.
Qed.

(** X4: over any run of the loop that started with a disk snapshot, the
    disk rates collected add up to the bytes between the first and the last
    snapshot, in MiB: a tick without disk counters contributes 0 and keeps
    the snapshot, so the next delta spans the gap. *)
Theorem disk_rates_add_up G t0 script self how self' first :
  data_collection_loop G t0 script self = (Return how, self') ->
  last_disk self = Some first ->
  exists latest,
    last_disk self' = Some latest /\
    np_sum (disk_read self') ==
      np_sum (disk_read self) + delta_mb (read_bytes latest) (read_bytes first) /\
    np_sum (disk_write self') ==
      np_sum (disk_write self) + delta_mb (write_bytes latest) (write_bytes first).
Proof.
  intros Hloop Hfirst.
  apply (data_collection_loop_invariant G t0
           (fun m => exists latest,
              last_disk m = Some latest /\
              np_sum (disk_read m) ==
                np_sum (disk_read self) + delta_mb (read_bytes latest) (read_bytes first) /\
              np_sum (disk_write m) ==
                np_sum (disk_write self) + delta_mb (write_bytes latest) (write_bytes first)))
    with (script := script) (self := self) (how := how); try assumption.
  - intros r m m' (latest & Hl & Hr & Hw) Hc.
    destruct (collect_data_inv _ _ _ Hc) as (net & lastn & _ & _ & Happ).
    pose proof (collect_data_last_disk G r m) as Hld. rewrite Hc in Hld. simpl in Hld.
    rewrite (app_disk_read Happ), (app_disk_write Happ), !np_sum_snoc.
    unfold disk_rates. rewrite Hl in *.
    destruct (disk_io_counters r) as [disk|]; simpl.
    + exists disk. split; [exact Hld|]. rewrite Hr, Hw. split.
      * rewrite (delta_mb_chain (read_bytes first) (read_bytes latest) (read_bytes disk)).
        ring.
      * rewrite (delta_mb_chain (write_bytes first) (write_bytes latest) (write_bytes disk)).
        ring.
    + exists latest. split; [exact Hld|]. rewrite Hr, Hw. split; ring.
  - exists first. split; [exact Hfirst|].
    rewrite !delta_mb_self. split; ring.
Qed.

Lemma disk_rates_add_up_witness :
  np_sum (disk_read (snd (data_collection_loop false 100 Scene.full_run Run.fresh)))
  == 3.
Proof.
  assert (Hloop : data_collection_loop false 100 Scene.full_run Run.fresh
                  = (Return DurationElapsed,
                     snd (data_collection_loop false 100 Scene.full_run Run.fresh)))
    by (vm_compute; reflexivity).
  destruct (disk_rates_add_up false 100 Scene.full_run Run.fresh
              (first := {| read_bytes := 50 * Run.MiB; write_bytes := 50 * Run.MiB |})
              Hloop eq_refl) as (latest & Hl & Hr & _).
  rewrite Hr. vm_compute in Hl. injection Hl as <-. vm_compute. reflexivity.
Defined.

(** X5: over any run of the loop that started with a network snapshot, the
    network rates collected add up to the bytes between the first and the
    last snapshot, in MiB. *)
Theorem network_rates_add_up G t0 script self how self' first :
  data_collection_loop G t0 script self = (Return how, self') ->
  last_net self = Some first ->
  exists latest,
    last_net self' = Some latest /\
    np_sum (network_sent self') ==
      np_sum (network_sent self) + delta_mb (bytes_sent latest) (bytes_sent first) /\
    np_sum (network_recv self') ==
      np_sum (network_recv self) + delta_mb (bytes_recv latest) (bytes_recv first).
Proof.
  intros Hloop Hfirst.
  apply (data_collection_loop_invariant G t0
           (fun m => exists latest,
              last_net m = Some latest /\
              np_sum (network_sent m) ==
                np_sum (network_sent self) + delta_mb (bytes_sent latest) (bytes_sent first) /\
              np_sum (network_recv m) ==
                np_sum (network_recv self) + delta_mb (bytes_recv latest) (bytes_recv first)))
    with (script := script) (self := self) (how := how); try assumption.
  - intros r m m' (latest & Hl & Hs & Hr) Hc.
    destruct (collect_data_inv _ _ _ Hc) as (net & lastn & _ & Hl' & Happ).
    rewrite Hl in Hl'. injection Hl' as <-.
    exists net. split; [exact (app_last_net Happ)|].
    rewrite (app_network_sent Happ), (app_network_recv Happ), !np_sum_snoc.
    rewrite Hs, Hr. split.
    + rewrite (delta_mb_chain (bytes_sent first) (bytes_sent latest) (bytes_sent net)).
      ring.
    + rewrite (delta_mb_chain (bytes_recv first) (bytes_recv latest) (bytes_recv net)).
      ring.
  - exists first. split; [exact Hfirst|].
    rewrite !delta_mb_self. split; ring.
Qed.

Lemma network_rates_add_up_witness :
  np_sum (network_recv (snd (data_collection_loop false 100 Scene.full_run Run.fresh)))
  == 3.
Proof.
  assert (Hloop : data_collection_loop false 100 Scene.full_run Run.fresh
                  = (Return DurationElapsed,
                     snd (data_collection_loop false 100 Scene.full_run Run.fresh)))
    by (vm_compute; reflexivity).
  destruct (network_rates_add_up false 100 Scene.full_run Run.fresh
              (first := {| bytes_sent := 50 * Run.MiB; bytes_recv := 50 * Run.MiB |})
              Hloop eq_refl) as (latest & Hl & _ & Hr).
  rewrite Hr. vm_compute in Hl. injection Hl as <-. vm_compute. reflexivity.
Defined.

(** X6: a monitor constructed while no disk counters could be read never
    gets a disk snapshot: every sample of the run has disk rates 0, also on
    ticks where the counters have become readable. *)
Theorem disk_rates_zero_without_first_snapshot G t0 script self how self' :
  data_collection_loop G t0 script self = (Return how, self') ->
  last_disk self = None ->
  last_disk self' = None /\
  exists k,
    disk_read self' = disk_read self ++ repeat 0 k /\
    disk_write self' = disk_write self ++ repeat 0 k /\
    List.length (timestamps self') = (List.length (timestamps self) + k)%nat.
Proof.
  intros Hloop Hnone.
  apply (data_collection_loop_invariant G t0
           (fun m => last_disk m = None /\
              exists k,
                disk_read m = disk_read self ++ repeat 0 k /\
                disk_write m = disk_write self ++ repeat 0 k /\
                List.length (timestamps m) = (List.length (timestamps self) + k)%nat))
    with (script := script) (self := self) (how := how); try assumption.
  - intros r m m' (Hl & k & Hr & Hw & Hn) Hc.
    destruct (collect_data_inv _ _ _ Hc) as (net & lastn & _ & _ & Happ).
    pose proof (collect_data_last_disk G r m) as Hld. rewrite Hc in Hld. simpl in Hld.
    rewrite Hl in Hld.
    split; [destruct (disk_io_counters r); exact Hld|].
    exists (S k).
    rewrite (app_disk_read Happ), (app_disk_write Happ), (app_timestamps Happ).
    unfold disk_rates. rewrite Hl, Hr, Hw, length_app, Hn.
    replace (repeat 0 (S k)) with (repeat 0 k ++ [0])
      by (symmetry; apply (repeat_cons k 0)).
    rewrite !app_assoc.
    destruct (disk_io_counters r); simpl; repeat split; lia.
  - split; [exact Hnone|]. exists 0%nat. simpl. rewrite !app_nil_r.
    repeat split. lia.
Qed.

Lemma disk_rates_zero_without_first_snapshot_witness :
  last_disk (snd (data_collection_loop false 100 Scene.full_run Scene.diskless_start))
  = None /\
  disk_read (snd (data_collection_loop false 100 Scene.full_run Scene.diskless_start))
  = [0; 0; 0].
Proof.
  assert (Hloop : data_collection_loop false 100 Scene.full_run Scene.diskless_start
                  = (Return DurationElapsed,
                     snd (data_collection_loop false 100 Scene.full_run
                            Scene.diskless_start)))
    by (vm_compute; reflexivity).
  destruct (disk_rates_zero_without_first_snapshot false 100 Scene.full_run
              Scene.diskless_start Hloop eq_refl) as (Hnone & k & Hr & _ & Hk).
  split; [exact Hnone|].
  rewrite Hr. vm_compute in Hk. subst k. reflexivity.
Defined.

(** ** How the loop ends *)

(** Ticks that pass the loop test and find network counters are all
    executed. *)
Lemma data_collection_loop_ticks G t0 (ticks : list Event) :
  forall self,
    Forall (within t0 (duration self)) ticks ->
    Forall with_network ticks ->
    (ticks <> [] -> last_net self <> None) ->
    exists self1,
      (forall rest,
         data_collection_loop G t0 (ticks ++ rest) self
         = data_collection_loop G t0 rest self1) /\
      List.length (timestamps self1)
      = (List.length (timestamps self) + List.length ticks)%nat /\
      duration self1 = duration self /\
      (aligned self -> aligned self1).
Proof.
  induction ticks as [|[now r|] ticks IH]; intros self Hin Hnet Hlast.
  - exists self. split; [reflexivity|]. split; [simpl; lia|].
    split; [reflexivity | auto].
  - inversion Hin as [|? ? Hnow Hin']. inversion Hnet as [|? ? Hr Hnet']. subst.
    simpl in Hnow, Hr.
    destruct (net_io_counters r) as [net|] eqn:En; [|congruence].
    destruct (last_net self) as [lastn|] eqn:El;
      [|exfalso; apply Hlast; [discriminate | reflexivity]].
    destruct (collect_data_returns G r self En El) as (m1 & Hrun & Happ).
    destruct (IH m1) as (m2 & Hrest & Hlen & Hdur & Hal).
    + rewrite (app_duration Happ). exact Hin'.
    + exact Hnet'.
    + intros _. rewrite (app_last_net Happ). discriminate.
    + exists m2. split; [|split; [|split]].
      * intros rest. simpl. unfold bind at 1, get at 1.
        rewrite (Qlt_bool_true Hnow). unfold bind at 1. rewrite Hrun.
        apply Hrest.
      * rewrite Hlen, (app_timestamps Happ), length_app. simpl. lia.
      * rewrite Hdur. exact (app_duration Happ).
      * intros Ha. exact (Hal (appended_aligned Happ Ha)).
  - inversion Hin as [|? ? Hnow _]. destruct Hnow.
Qed.

(** X7: the loop collects one sample for each loop test passed and stops
    at the first test read at or after the duration, whatever follows in
    the script. *)
Theorem loop_stops_at_the_duration G t0 ticks now r rest self :
  Forall (within t0 (duration self)) ticks ->
  Forall with_network ticks ->
  (ticks <> [] -> last_net self <> None) ->
  duration self <= now - t0 ->
  exists self',
    data_collection_loop G t0 (ticks ++ Tick now r :: rest) self
    = (Return DurationElapsed, self') /\
    List.length (timestamps self')
    = (List.length (timestamps self) + List.length ticks)%nat /\
    (aligned self -> aligned self').
Proof.
  intros Hin Hnet Hlast Hge.
  destruct (@data_collection_loop_ticks G t0 ticks self Hin Hnet Hlast)
    as (m1 & Hrest & Hlen & Hdur & Hal).
  exists m1. split; [|split; assumption].
  rewrite Hrest. simpl. unfold bind, get, ret.
  rewrite Hdur, (Qlt_bool_false Hge). reflexivity.
Qed.

Lemma loop_stops_at_the_duration_witness :
  exists self',
    data_collection_loop false 100 Scene.full_run Run.fresh
    = (Return DurationElapsed, self') /\
    List.length (timestamps self') = 3%nat.
Proof.
  destruct (@loop_stops_at_the_duration false 100 Scene.three_ticks 220
              (Run.nth_tick 120) [] Run.fresh)
    as (self' & Hrun & Hlen & _).
  - repeat constructor.
  - repeat constructor; discriminate.
  - discriminate.
  - vm_compute. discriminate.
  - exists self'. split; [exact Hrun | exact Hlen].
Defined.

(** X8: an interruption that arrives between two ticks, while the loop
    sleeps or tests the clock, keeps every sample collected before it, and
    when there is at least one, [start] goes on to build the report from
    them after the lines that tell of the interruption and of the end of
    the collection. *)
Theorem interrupted_run_is_reported G sqrt writable t0 ticks rest self w :
  ticks <> [] ->
  Forall (within t0 (duration self)) ticks ->
  Forall with_network ticks ->
  last_net self <> None ->
  exists self',
    data_collection_loop G t0 (ticks ++ KeyboardInterrupt :: rest) self
    = (Return Interrupted, self') /\
    List.length (timestamps self')
    = (List.length (timestamps self) + List.length ticks)%nat /\
    start G sqrt writable t0 (ticks ++ KeyboardInterrupt :: rest) self w
    = let report :=
        generate_pdf_report G sqrt writable self' "system_monitor_report.pdf"
          (say "Data collection complete!"
             (say "Monitoring interrupted by user." (announce w))) in
      Some (fst report, self', snd report).
Proof.
  intros Hne Hin Hnet Hlast.
  destruct (@data_collection_loop_ticks G t0 ticks self Hin Hnet (fun _ => Hlast))
    as (m1 & Hrest & Hlen & _ & _).
  exists m1. split; [rewrite Hrest; reflexivity|]. split; [exact Hlen|].
  unfold start. rewrite Hrest. simpl data_collection_loop. unfold ret.
  cbv zeta.
  destruct (List.length (timestamps m1)) as [|n] eqn:En.
  - destruct ticks; [congruence | simpl in Hlen; lia].
  - change (0 <? S n)%nat with true. cbv iota.
    destruct (generate_pdf_report _ _ _ _ _ _). reflexivity.
Qed.

Lemma interrupted_run_is_reported_witness :
  exists self',
    data_collection_loop false 100 (Scene.three_ticks ++ [KeyboardInterrupt])
      Run.fresh = (Return Interrupted, self') /\
    List.length (timestamps self') = 3%nat.
Proof.
  destruct (@interrupted_run_is_reported false (fun v => v) Run.all_writable 100
              Scene.three_ticks [] Run.fresh Run.empty_world)
    as (self' & Hrun & Hlen & _).
  - discriminate.
  - repeat constructor.
  - repeat constructor; discriminate.
  - discriminate.
  - exists self'. split; [exact Hrun | exact Hlen].
Defined.

Lemma ascending_snoc (l : list Q) (x : Q) :
  ascending l -> (forall a, In a l -> a < x) -> ascending (l ++ [x]).
Proof.
  induction l as [|y l IH]; simpl; intros Hasc Hlt.
  - split; [intros ? []|exact I].
  - destruct Hasc as [Hy Hasc]. split.
    + intros z Hz. apply in_app_or in Hz. destruct Hz as [Hz|[<-|[]]].
      * exact (Hy z Hz).
      * apply Hlt. left. reflexivity.
    + apply IH; [exact Hasc|]. intros a Ha. apply Hlt. right. exact Ha.
Qed.

Lemma Qminus_lt_r (a b c : Q) : a < b -> a - c < b - c.
Proof. intros H. unfold Qminus. apply Qplus_lt_l. exact H. Qed.

(** X9: when every tick reads the clock later than the tick before, the
    elapsed times of the store are strictly increasing. *)
Theorem timestamps_strictly_increase G t0 script :
  forall t self how self',
    data_collection_loop G t0 script self = (Return how, self') ->
    ascending (timestamps self) ->
    (forall a, In a (timestamps self) -> a <= t - start_time self) ->
    clock_advances t script ->
    ascending (timestamps self').
Proof.
  induction script as [|[now r|] script IH];
    intros t self how self' H Hasc Hbound Hclock; simpl in H.
  - injection H as _ <-. exact Hasc.
  - unfold bind at 1, get at 1 in H.
    destruct (Qlt_bool (now - t0) (duration self)).
    + unfold bind at 1 in H.
      destruct (collect_data G r self) as [[[]|e] m1] eqn:Hc; [|discriminate].
      destruct (collect_data_inv _ _ _ Hc) as (net & lastn & _ & _ & Happ).
      destruct Hclock as [Ht Hclock].
      apply (IH (time_time r) m1 how self' H).
      * rewrite (app_timestamps Happ). apply ascending_snoc; [exact Hasc|].
        intros a Ha. apply Qle_lt_trans with (t - start_time self).
        -- exact (Hbound a Ha).
        -- apply Qminus_lt_r. exact Ht.
      * intros a Ha. rewrite (app_timestamps Happ) in Ha.
        rewrite (app_start_time Happ).
        apply in_app_or in Ha. destruct Ha as [Ha|[<-|[]]].
        -- apply Qlt_le_weak. apply Qle_lt_trans with (t - start_time self).
           ++ exact (Hbound a Ha).
           ++ apply Qminus_lt_r. exact Ht.
        -- apply Qle_refl.
      * exact Hclock.
    + injection H as _ <-. exact Hasc.
  - injection H as _ <-. exact Hasc.
Qed.

Lemma timestamps_strictly_increase_witness :
  ascending (timestamps (snd (data_collection_loop false 100 Scene.full_run Run.fresh))).
Proof.
  assert (Hloop : data_collection_loop false 100 Scene.full_run Run.fresh
                  = (Return DurationElapsed,
                     snd (data_collection_loop false 100 Scene.full_run Run.fresh)))
    by (vm_compute; reflexivity).
  apply (@timestamps_strictly_increase false 100 Scene.full_run 100 Run.fresh
           DurationElapsed
           (snd (data_collection_loop false 100 Scene.full_run Run.fresh)) Hloop).
  - exact I.
  - intros a [].
  - vm_compute. repeat split.
Defined.

(** ** The files of the report *)

Lemma find_removed (name other : string) (fs : list (string * FileContent)) :
  other <> name ->
  find (fun f => String.eqb other (fst f))
       (filter (fun f => negb (String.eqb name (fst f))) fs)
  = find (fun f => String.eqb other (fst f)) fs.
Proof.
  intros Hne. induction fs as [|[n c] fs IH]; simpl; [reflexivity|].
  destruct (String.eqb_spec name n) as [<-|Hn]; simpl.
  - destruct (String.eqb_spec other name); [contradiction | exact IH].
  - destruct (String.eqb other n); [reflexivity | exact IH].
Qed.

Lemma read_file_written name c w : read_file name (write_file name c w) = Some c.
Proof. unfold read_file, write_file. simpl. rewrite String.eqb_refl. reflexivity. Qed.

Lemma read_file_written_other name other c w :
  other <> name -> read_file other (write_file name c w) = read_file other w.
Proof.
  intros Hne. unfold read_file, write_file. simpl.
  destruct (String.eqb_spec other name); [contradiction|].
  rewrite (find_removed _ Hne). reflexivity.
Qed.

Lemma read_file_removed name w : read_file name (remove_file name w) = None.
Proof.
  unfold read_file, remove_file. simpl.
  induction (files w) as [|[n c] fs IH]; simpl; [reflexivity|].
  destruct (String.eqb name n) eqn:E; simpl; [exact IH|].
  rewrite E. exact IH.
Qed.

Lemma read_file_removed_other name other w :
  other <> name -> read_file other (remove_file name w) = read_file other w.
Proof.
  intros Hne. unfold read_file, remove_file. simpl.
  rewrite (find_removed _ Hne). reflexivity.
Qed.

Lemma read_file_absent name w : exists_file name w = false -> read_file name w = None.
Proof.
  unfold exists_file, read_file.
  induction (files w) as [|[n c] fs IH]; simpl; [reflexivity|].
  destruct (String.eqb name n); simpl; [discriminate | exact IH].
Qed.

Lemma exists_file_written_other name other c w :
  exists_file name w = true -> other <> name ->
  exists_file name (write_file other c w) = true.
Proof.
  intros Hex Hne. unfold exists_file, write_file, remove_file in *. simpl.
  destruct (String.eqb_spec name other) as [Heq|_];
    [symmetry in Heq; contradiction|]. simpl.
  induction (files w) as [|[n c'] fs IH]; simpl in *; [discriminate|].
  destruct (String.eqb_spec name n) as [<-|Hn]; simpl.
  - destruct (String.eqb_spec other name); [contradiction|]. simpl.
    rewrite String.eqb_refl. reflexivity.
  - destruct (String.eqb other n); simpl; [exact (IH Hex)|].
    destruct (String.eqb_spec name n); [contradiction | exact (IH Hex)].
Qed.

(** The world a successful call of the report builder leaves. *)
Lemma generate_pdf_report_success G sqrt writable self filename w :
  aligned self -> timestamps self <> [] ->
  writable graph_file = true -> writable filename = true ->
  filename <> graph_file ->
  exists rows detail,
    summary_data G sqrt self = Return rows /\
    detailed_data self = Return detail /\
    generate_pdf_report G sqrt writable self filename w
    = (Return tt,
       say ("PDF report generated successfully: " ++ filename)
         (remove_file graph_file
            (write_file filename (Document rows detail)
               (write_file graph_file ChartImage
                  (say ("Generating PDF report: " ++ filename) w))))).
Proof.
  intros Hal Hne Hg Hf Hdiff.
  destruct (summary_data_returns G sqrt Hal Hne) as (rows & Hrows).
  pose proof (detailed_data_rows Hal) as Hdet.
  exists rows. eexists. split; [exact Hrows|]. split; [exact Hdet|].
  unfold generate_pdf_report, print, save, bind, modify, lift, get, ret, raise.
  rewrite Hrows, Hg, Hdet, Hf. cbv beta iota.
  match goal with
  | |- context [exists_file graph_file ?x] =>
      assert (E : exists_file graph_file x = true)
        by (apply exists_file_written_other;
            [apply exists_file_written | exact Hdiff]);
      rewrite E
  end.
  reflexivity.
Qed.

(** X10: with a store of at least one sample and both paths writable, the
    report builder returns; the output file then holds the summary table
    and the detailed table of the store, no file named [temp_graphs.png] is
    left (one that was there before the call is gone too), every other file
    is as before, and the console has gained the two lines of the
    builder. *)
Theorem report_written_and_chart_removed G sqrt writable self filename w :
  aligned self -> timestamps self <> [] ->
  writable graph_file = true -> writable filename = true ->
  filename <> graph_file ->
  exists rows detail w',
    summary_data G sqrt self = Return rows /\
    detailed_data self = Return detail /\
    generate_pdf_report G sqrt writable self filename w = (Return tt, w') /\
    read_file filename w' = Some (Document rows detail) /\
    read_file graph_file w' = None /\
    (forall other,
       other <> filename -> other <> graph_file ->
       read_file other w' = read_file other w) /\
    console w' =
      console w ++ [("Generating PDF report: " ++ filename)%string;
                    ("PDF report generated successfully: " ++ filename)%string].
Proof.
  intros Hal Hne Hg Hf Hdiff.
  destruct (generate_pdf_report_success G sqrt writable w Hal Hne Hg Hf Hdiff)
    as (rows & detail & Hrows & Hdet & Hrun).
  exists rows, detail. eexists.
  split; [exact Hrows|]. split; [exact Hdet|]. split; [exact Hrun|].
  assert (Hsay : forall name line w0, read_file name (say line w0) = read_file name w0)
    by reflexivity.
  rewrite Hsay. split; [|split; [|split]].
  - rewrite (read_file_removed_other _ Hdiff). apply read_file_written.
  - apply read_file_removed.
  - intros other Ho Hog. rewrite Hsay.
    rewrite (read_file_removed_other _ Hog), (read_file_written_other _ _ Ho),
      (read_file_written_other _ _ Hog).
    apply Hsay.
  - unfold say, print, modify. simpl. rewrite <- app_assoc. reflexivity.
Qed.

Lemma report_written_and_chart_removed_witness :
  exists w',
    generate_pdf_report false (fun v => v) Run.all_writable (Run.after_ticks 3)
      "system_monitor_report.pdf" Scene.littered_world = (Return tt, w') /\
    read_file graph_file Scene.littered_world = Some ChartImage /\
    read_file graph_file w' = None /\
    read_file "notes.txt" w' = read_file "notes.txt" Scene.littered_world.
Proof.
  assert (Hal : aligned (Run.after_ticks 3)) by (vm_compute; repeat split).
  assert (Hne : timestamps (Run.after_ticks 3) <> []) by (vm_compute; discriminate).
  assert (Hdiff : "system_monitor_report.pdf"%string <> graph_file) by discriminate.
  destruct (report_written_and_chart_removed false (fun v => v) Run.all_writable
              Scene.littered_world Hal Hne eq_refl eq_refl Hdiff)
    as (rows & detail & w' & _ & _ & Hrun & _ & Hgone & Hother & _).
  exists w'. split; [exact Hrun|]. split; [reflexivity|]. split; [exact Hgone|].
  apply Hother; discriminate.
Defined.

(** X11: when the chart image cannot be written, the report builder raises
    before it has written anything: the files are those of before the call
    and only the first console line was printed. *)
Theorem nothing_written_when_chart_fails G sqrt writable self filename w :
  aligned self -> timestamps self <> [] ->
  writable graph_file = false ->
  exists w',
    generate_pdf_report G sqrt writable self filename w = (Raise OSError, w') /\
    files w' = files w /\
    console w' = console w ++ [("Generating PDF report: " ++ filename)%string].
Proof.
  intros Hal Hne Hg.
  destruct (summary_data_returns G sqrt Hal Hne) as (rows & Hrows).
  unfold generate_pdf_report, print, save, bind, modify, lift, get, ret, raise.
  rewrite Hrows, Hg. eexists. repeat split.
Qed.

Lemma nothing_written_when_chart_fails_witness :
  exists w',
    generate_pdf_report false (fun v => v) (fun _ => false) (Run.after_ticks 3)
      "system_monitor_report.pdf" Scene.littered_world = (Raise OSError, w') /\
    files w' = files Scene.littered_world.
Proof.
  assert (Hal : aligned (Run.after_ticks 3)) by (vm_compute; repeat split).
  assert (Hne : timestamps (Run.after_ticks 3) <> []) by (vm_compute; discriminate).
  destruct (nothing_written_when_chart_fails false (fun v => v) (fun _ => false)
              "system_monitor_report.pdf" Scene.littered_world Hal Hne eq_refl)
    as (w' & Hrun & Hfiles & _).
  exists w'. split; [exact Hrun | exact Hfiles].
Defined.

(** X12: the detailed table is bounded: for a store of [n] samples it has
    [1 + min(10, n)] rows, and 11 more when [n > 20], so never more than 22
    however long the run was. *)
Theorem detailed_data_is_bounded self :
  aligned self ->
  exists rows,
    detailed_data self = Return rows /\
    List.length rows
    = (1 + Nat.min 10 (List.length (timestamps self))
       + (if (20 <? List.length (timestamps self))%nat then 11 else 0))%nat /\
    (List.length rows <= 22)%nat.
Proof.
  intros Hal. eexists. split; [exact (detailed_data_rows Hal)|].
  assert (Hlen : forall n,
            List.length
              (DetailHeader :: map (row_at self) (seq 0 (Nat.min 10 n)) ++
               (if (20 <? n)%nat
                then Ellipsis :: map (row_at self) (seq (n - 10) 10) else []))
            = (1 + Nat.min 10 n + (if (20 <? n)%nat then 11 else 0))%nat).
  { intros n. rewrite length_cons, length_app, length_map, length_seq.
    destruct (20 <? n)%nat.
    - rewrite length_cons, length_map, length_seq. lia.
    - simpl. lia. }
  rewrite Hlen. split; [reflexivity|].
  destruct (20 <? List.length (timestamps self))%nat; lia.
Qed.

Lemma detailed_data_is_bounded_witness :
  exists rows,
    detailed_data (Run.after_ticks 25) = Return rows /\
    List.length rows = 22%nat.
Proof.
  assert (Hal : aligned (Run.after_ticks 25)) by (vm_compute; repeat split).
  destruct (detailed_data_is_bounded Hal) as (rows & Hrun & Hlen & _).
  exists rows. split; [exact Hrun|]. rewrite Hlen. vm_compute. reflexivity.
Defined.

(** ** The statistics of a column *)

Lemma Qmin_cases (x y : Q) : Qmin x y = x \/ Qmin x y = y.
Proof.
  unfold Qmin, GenericMinMax.gmin. destruct (x ?= y); auto.
Qed.

Lemma Qmax_cases (x y : Q) : Qmax x y = x \/ Qmax x y = y.
Proof.
  unfold Qmax, GenericMinMax.gmax. destruct (x ?= y); auto.
Qed.

Lemma fold_Qmin_spec (l : list Q) :
  forall x,
    In (fold_left Qmin l x) (x :: l) /\
    forall y, In y (x :: l) -> fold_left Qmin l x <= y.
Proof.
  induction l as [|z l IH]; intros x; simpl.
  - split; [left; reflexivity|]. intros y [<-|[]]. apply Qle_refl.
  - destruct (IH (Qmin x z)) as [Hin Hle]. split.
    + destruct Hin as [Hin|Hin]; [|right; right; exact Hin].
      rewrite <- Hin. destruct (Qmin_cases x z) as [->| ->]; auto.
    + intros y [<-|[<-|Hy]].
      * apply Qle_trans with (Qmin x z); [apply Hle; left; reflexivity|].
        apply Q.le_min_l.
      * apply Qle_trans with (Qmin x z); [apply Hle; left; reflexivity|].
        apply Q.le_min_r.
      * apply Hle. right. exact Hy.
Qed.

Lemma fold_Qmax_spec (l : list Q) :
  forall x,
    In (fold_left Qmax l x) (x :: l) /\
    forall y, In y (x :: l) -> y <= fold_left Qmax l x.
Proof.
  induction l as [|z l IH]; intros x; simpl.
  - split; [left; reflexivity|]. intros y [<-|[]]. apply Qle_refl.
  - destruct (IH (Qmax x z)) as [Hin Hle]. split.
    + destruct Hin as [Hin|Hin]; [|right; right; exact Hin].
      rewrite <- Hin. destruct (Qmax_cases x z) as [->| ->]; auto.
    + intros y [<-|[<-|Hy]].
      * apply Qle_trans with (Qmax x z); [apply Q.le_max_l|].
        apply Hle. left. reflexivity.
      * apply Qle_trans with (Qmax x z); [apply Q.le_max_r|].
        apply Hle. left. reflexivity.
      * apply Hle. right. exact Hy.
Qed.

(** X13: in a statistics row the minimum and the maximum are values of the
    column, and every value of the column lies between them. *)
Theorem stat_row_is_consistent sqrt resource column name average minimum maximum sd :
  stat_row sqrt resource column = Return (Stat name average minimum maximum sd) ->
  In minimum column /\ In maximum column /\
  (forall v, In v column -> minimum <= v <= maximum).
Proof.
  unfold stat_row, np_min, np_max. destruct column as [|x l]; [discriminate|].
  simpl obind. intros H. injection H as _ _ <- <- _.
  destruct (fold_Qmin_spec l x) as [Hmin_in Hmin].
  destruct (fold_Qmax_spec l x) as [Hmax_in Hmax].
  split; [exact Hmin_in|]. split; [exact Hmax_in|].
  intros v Hv. split; [exact (Hmin v Hv) | exact (Hmax v Hv)].
Qed.

Lemma stat_row_is_consistent_witness :
  In 0 [0; 60; 0] /\ In 60 [0; 60; 0] /\
  (forall v, In v [0; 60; 0] -> 0 <= v <= 60).
Proof.
  exact (@stat_row_is_consistent (fun v => v) "CPU Temperature (°C)" [0; 60; 0]
           "CPU Temperature (°C)"%string (np_mean [0; 60; 0]) 0 60
           (np_var [0; 60; 0]) eq_refl).
Defined.
(** ** The live view *)

Lemma Qlt_bool_iff (x y : Q) : Qlt_bool x y = true <-> x < y.
Proof.
  split; [|apply Qlt_bool_true].
  unfold Qlt_bool. intros H. apply negb_true_iff in H.
  apply Qnot_le_lt. intros Hle. apply Qle_bool_iff in Hle. congruence.
Qed.

Lemma Qlt_bool_false_iff (x y : Q) : Qlt_bool x y = false <-> y <= x.
Proof.
  split; [|apply Qlt_bool_false].
  unfold Qlt_bool. intros H. apply negb_false_iff in H.
  apply Qle_bool_iff. exact H.
Qed.

Lemma fold_py_max_spec (l : list Q) :
  forall best,
    best <= fold_left (fun b v => if Qlt_bool b v then v else b) l best /\
    forall y, In y l ->
      y <= fold_left (fun b v => if Qlt_bool b v then v else b) l best.
Proof.
  induction l as [|z l IH]; intros best; simpl.
  - split; [apply Qle_refl | intros y []].
  - destruct (IH (if Qlt_bool best z then z else best)) as [Hge Hall].
    destruct (Qlt_bool best z) eqn:E.
    + apply Qlt_bool_iff in E. split.
      * apply Qle_trans with z; [apply Qlt_le_weak; exact E | exact Hge].
      * intros y [<-|Hy]; [exact Hge | exact (Hall y Hy)].
    + apply Qlt_bool_false_iff in E. split; [exact Hge|].
      intros y [<-|Hy]; [|exact (Hall y Hy)].
      apply Qle_trans with best; [exact E | exact Hge].
Qed.

(** [max(l + [d])] never raises, and is at least [d] and every value. *)
Lemma py_max_with_default (l : list Q) (d : Q) :
  exists v,
    py_max (l ++ [d]) = Return v /\ d <= v /\ forall y, In y l -> y <= v.
Proof.
  destruct l as [|x l]; simpl.
  - exists d. split; [reflexivity|]. split; [apply Qle_refl | intros y []].
  - eexists. split; [reflexivity|].
    destruct (fold_py_max_spec (l ++ [d]) x) as [Hx Hall]. split.
    + apply Hall. apply in_or_app. right. left. reflexivity.
    + intros y [<-|Hy]; [exact Hx|]. apply Hall. apply in_or_app. left. exact Hy.
Qed.

Lemma py_max2_ge (a b : Q) : a <= py_max2 a b /\ b <= py_max2 a b.
Proof.
  unfold py_max2. destruct (Qlt_bool a b) eqn:E.
  - apply Qlt_bool_iff in E. split; [apply Qlt_le_weak; exact E | apply Qle_refl].
  - apply Qlt_bool_false_iff in E. split; [apply Qle_refl | exact E].
Qed.

Lemma plot_same_length (x : list Q) (ys : list (list Q)) (top : option Limit) :
  (forall y, In y ys -> List.length y = List.length x) ->
  plot x ys top = Return (Curves x ys top).
Proof.
  intros H. unfold plot.
  replace (forallb (fun y => (List.length y =? List.length x)%nat) ys) with true;
    [reflexivity|].
  symmetry. apply forallb_forall. intros y Hy. apply Nat.eqb_eq. exact (H y Hy).
Qed.

Lemma py_last_nonempty (l : list Q) : l <> [] -> py_last l = Return (last l 0).
Proof. destruct l; [congruence | reflexivity]. Qed.

Lemma nonempty_of_length (l ts : list Q) :
  List.length l = List.length ts -> ts <> [] -> l <> [].
Proof. destruct l, ts; simpl; congruence. Qed.

Ltac same_length :=
  let Hin := fresh "Hin" in
  intros ? Hin; simpl in Hin;
  repeat (destruct Hin as [<-|Hin]; [assumption|]);
  destruct Hin.

(** The dashboard drawn from a store of at least one sample. *)
Lemma redraw_shape G self :
  aligned self -> timestamps self <> [] ->
  exists top_r top_w top_s top_v top_t,
    py_max (disk_read self ++ [1]) = Return top_r /\
    py_max (disk_write self ++ [1]) = Return top_w /\
    py_max (network_sent self ++ [1]) = Return top_s /\
    py_max (network_recv self ++ [1]) = Return top_v /\
    py_max (cpu_temp self ++ [100]) = Return top_t /\
    redraw G self =
    Return
      {| ax_cpu := Curves (timestamps self) [cpu_percent self] (Some (Fixed 105));
         ax_memory := Curves (timestamps self) [memory_percent self] (Some (Fixed 105));
         ax_disk_io :=
           Curves (timestamps self) [disk_read self; disk_write self]
             (Some (Scaled (py_max2 top_r top_w) (12 # 10)));
         ax_network :=
           Curves (timestamps self) [network_sent self; network_recv self]
             (Some (Scaled (py_max2 top_s top_v) (12 # 10)));
         ax_cpu_temp :=
           if any_positive (cpu_temp self)
           then Curves (timestamps self) [cpu_temp self] (Some (Scaled top_t (11 # 10)))
           else Placeholder ["Temperature"; "Not Available"]%string;
         ax_gpu :=
           if G && any_positive (gpu_util self)
           then Curves (timestamps self) [gpu_util self; gpu_memory self]
                  (Some (Fixed 105))
           else Placeholder ["GPU"; "Not Available"]%string;
         ax_summary :=
           {| status_elapsed := last (timestamps self) 0;
              status_remaining := duration self - last (timestamps self) 0;
              status_cpu := last (cpu_percent self) 0;
              status_memory := last (memory_percent self) 0;
              status_disk_read := last (disk_read self) 0;
              status_disk_write := last (disk_write self) 0;
              status_network_sent := last (network_sent self) 0;
              status_network_recv := last (network_recv self) 0 |} |}.
Proof.
  intros (H1 & H2 & H3 & H4 & H5 & H6 & H7 & H8 & H9 & H10) Hne.
  cbv zeta in H1, H2, H3, H4, H5, H6, H7, H8, H9, H10.
  destruct (py_max_with_default (disk_read self) 1) as (top_r & Hr & _).
  destruct (py_max_with_default (disk_write self) 1) as (top_w & Hw & _).
  destruct (py_max_with_default (network_sent self) 1) as (top_s & Hs & _).
  destruct (py_max_with_default (network_recv self) 1) as (top_v & Hv & _).
  destruct (py_max_with_default (cpu_temp self) 100) as (top_t & Ht & _).
  exists top_r, top_w, top_s, top_v, top_t.
  repeat (split; [assumption|]).
  unfold redraw.
  rewrite (plot_same_length (timestamps self) [cpu_percent self]) by same_length.
  cbn [obind].
  rewrite (plot_same_length (timestamps self) [memory_percent self]) by same_length.
  cbn [obind]. rewrite Hr, Hw. cbn [obind].
  rewrite (plot_same_length (timestamps self) [disk_read self; disk_write self])
    by same_length.
  cbn [obind]. rewrite Hs, Hv. cbn [obind].
  rewrite (plot_same_length (timestamps self) [network_sent self; network_recv self])
    by same_length.
  cbn [obind].
  rewrite Ht. cbn [obind].
  rewrite (plot_same_length (timestamps self) [cpu_temp self]) by same_length.
  rewrite (plot_same_length (timestamps self) [gpu_util self; gpu_memory self])
    by same_length.
  rewrite !py_last_nonempty
    by (first [exact Hne | eapply nonempty_of_length; eassumption]).
  destruct (any_positive (cpu_temp self));
    destruct (G && any_positive (gpu_util self)); reflexivity.
Qed.


Lemma fold_py_max_in (l : list Q) :
  forall best,
    In (fold_left (fun b v => if Qlt_bool b v then v else b) l best) (best :: l).
Proof.
  induction l as [|z l IH]; intros best; simpl.
  - left. reflexivity.
  - destruct (IH (if Qlt_bool best z then z else best)) as [Hin|Hin].
    + destruct (Qlt_bool best z); rewrite <- Hin; auto.
    + right. right. exact Hin.
Qed.

(** [max(l + [d])] is [d] or a value of [l]. *)
Lemma py_max_with_default_in (l : list Q) (d v : Q) :
  py_max (l ++ [d]) = Return v -> In v (d :: l).
Proof.
  destruct l as [|x l]; simpl; intros H; injection H as <-.
  - left. reflexivity.
  - destruct (fold_py_max_in (l ++ [d]) x) as [Hin|Hin].
    + right. left. exact Hin.
    + apply in_app_or in Hin. destruct Hin as [Hin|[Hin|[]]].
      * right. right. exact Hin.
      * left. exact Hin.
Qed.

Lemma py_max2_cases (a b : Q) : py_max2 a b = a \/ py_max2 a b = b.
Proof. unfold py_max2. destruct (Qlt_bool a b); auto. Qed.

(** A frame on a monitor that has its axes, before the duration is over:
    the sample is collected and the dashboard of the new store is put on
    the axes. *)
Lemma update_plot_redraws G r v net lastn ax :
  aligned (monitor v) ->
  net_io_counters r = Some net -> last_net (monitor v) = Some lastn ->
  axes v = Some ax ->
  time_time r - start_time (monitor v) < duration (monitor v) ->
  exists m' d,
    collect_data G r (monitor v) = (Return tt, m') /\
    appended G r net lastn (monitor v) m' /\
    aligned m' /\ timestamps m' <> [] /\
    redraw G m' = Return d /\
    update_plot G r v
    = (Return tt,
       {| monitor := m';
          axes := Some {| fig_open := fig_open ax; shown := Some d |} |}).
Proof.
  intros Hal Hn Hl Hax Hlt.
  destruct (collect_data_returns G r (monitor v) Hn Hl) as (m' & Hrun & Happ).
  assert (Hne : timestamps m' <> []).
  { rewrite (app_timestamps Happ). intros E. apply app_eq_nil in E.
    destruct E. discriminate. }
  assert (Hlast : py_last (timestamps m')
                  = Return (time_time r - start_time (monitor v))).
  { rewrite (py_last_nonempty Hne), (app_timestamps Happ), last_last. reflexivity. }
  pose proof (appended_aligned Happ Hal) as Hal'.
  destruct (redraw_shape G Hal' Hne)
    as (tr & tw & ts & tv & tt' & _ & _ & _ & _ & _ & Hd).
  assert (E : Qle_bool (duration m')
                (time_time r - start_time (monitor v)) = false).
  { rewrite (app_duration Happ).
    destruct (Qle_bool (duration (monitor v))
                (time_time r - start_time (monitor v))) eqn:E; [|reflexivity].
    apply Qle_bool_iff in E. exfalso. exact (Qlt_not_le _ _ Hlt E). }
  exists m'. eexists.
  split; [exact Hrun|]. split; [exact Happ|]. split; [exact Hal'|].
  split; [exact Hne|]. split; [exact Hd|].
  unfold update_plot, bind, on_monitor, get, lift, attr, modify, ret, raise, set_axes.
  rewrite Hrun. cbn [monitor axes]. rewrite Hlast, E, Hax, Hd.
  reflexivity.
Qed.

(** X14: a frame of the live view collects its sample before it looks at
    the duration or at the figure: the store has one sample more after
    every frame whose tick returns, also when the duration is 0 or over,
    and also when [setup_plot] never ran, in which case the frame raises
    [AttributeError] after the sample is stored.  With the figure set up,
    the frame closes it without redrawing when the elapsed time of the new
    sample has reached the duration, and redraws otherwise. *)
Theorem update_plot_collects_then_tests G r v net lastn :
  aligned (monitor v) ->
  net_io_counters r = Some net -> last_net (monitor v) = Some lastn ->
  exists m',
    collect_data G r (monitor v) = (Return tt, m') /\
    List.length (timestamps m') = S (List.length (timestamps (monitor v))) /\
    match axes v with
    | None =>
        update_plot G r v
        = (Raise AttributeError, {| monitor := m'; axes := None |})
    | Some ax =>
        (duration (monitor v) <= time_time r - start_time (monitor v) ->
         update_plot G r v
         = (Return tt,
            {| monitor := m';
               axes := Some {| fig_open := false; shown := shown ax |} |})) /\
        (time_time r - start_time (monitor v) < duration (monitor v) ->
         exists d,
           redraw G m' = Return d /\
           update_plot G r v
           = (Return tt,
              {| monitor := m';
                 axes := Some {| fig_open := fig_open ax; shown := Some d |} |}))
    end.
Proof.
  intros Hal Hn Hl.
  destruct (collect_data_returns G r (monitor v) Hn Hl) as (m' & Hrun & Happ).
  assert (Hne : timestamps m' <> []).
  { rewrite (app_timestamps Happ). intros E. apply app_eq_nil in E.
    destruct E. discriminate. }
  assert (Hlast : py_last (timestamps m')
                  = Return (time_time r - start_time (monitor v))).
  { rewrite (py_last_nonempty Hne), (app_timestamps Happ), last_last. reflexivity. }
  exists m'. split; [exact Hrun|]. split.
  { rewrite (app_timestamps Happ), length_app. simpl. lia. }
  destruct (axes v) as [ax|] eqn:Hax.
  - split.
    + intros Hge. apply Qle_bool_iff in Hge.
      unfold update_plot, bind, on_monitor, get, lift, attr, modify, ret, raise,
        set_axes.
      rewrite Hrun. cbn [monitor axes].
      rewrite Hlast, (app_duration Happ), Hge, Hax. reflexivity.
    + intros Hlt.
      destruct (update_plot_redraws G r v Hal Hn Hl Hax Hlt)
        as (m'' & d & Hrun' & _ & _ & _ & Hd & Hup).
      rewrite Hrun in Hrun'. injection Hrun' as <-.
      exists d. split; [exact Hd | exact Hup].
  - unfold update_plot, bind, on_monitor, get, lift, attr, modify, ret, raise,
      set_axes.
    rewrite Hrun. cbn [monitor axes]. rewrite Hlast, (app_duration Happ), Hax.
    destruct (Qle_bool (duration (monitor v))
                (time_time r - start_time (monitor v))); reflexivity.
Qed.

Lemma update_plot_collects_then_tests_witness :
  (exists m',
     update_plot false Run.tick1 (Scene.with_view Run.zero_duration)
     = (Return tt,
        {| monitor := m';
           axes := Some {| fig_open := false; shown := None |} |}) /\
     List.length (timestamps m') = 1%nat) /\
  (exists m',
     update_plot false Run.tick1 (Scene.without_view Run.fresh)
     = (Raise AttributeError, {| monitor := m'; axes := None |}) /\
     List.length (timestamps m') = 1%nat).
Proof.
  split.
  - assert (Hal : aligned (monitor (Scene.with_view Run.zero_duration)))
      by (repeat split).
    destruct (@update_plot_collects_then_tests false Run.tick1
                (Scene.with_view Run.zero_duration)
                {| bytes_sent := 53 * Run.MiB; bytes_recv := 51 * Run.MiB |}
                {| bytes_sent := 50 * Run.MiB; bytes_recv := 50 * Run.MiB |}
                Hal eq_refl eq_refl) as (m' & _ & Hlen & Hup).
    exists m'. split; [|exact Hlen].
    simpl in Hup. destruct Hup as [Hclose _]. apply Hclose.
    vm_compute. discriminate.
  - assert (Hal : aligned (monitor (Scene.without_view Run.fresh)))
      by (repeat split).
    destruct (@update_plot_collects_then_tests false Run.tick1
                (Scene.without_view Run.fresh)
                {| bytes_sent := 53 * Run.MiB; bytes_recv := 51 * Run.MiB |}
                {| bytes_sent := 50 * Run.MiB; bytes_recv := 50 * Run.MiB |}
                Hal eq_refl eq_refl) as (m' & _ & Hlen & Hup).
    exists m'. split; [exact Hup | exact Hlen].
Defined.

(** X15: a frame that redraws, on a monitor whose figure is set up, shows
    the elapsed time of the sample it has just collected, a remaining time
    that is positive and adds up with it to the duration, and the CPU,
    memory and rate values of that sample. *)
Theorem update_plot_status G r v net lastn ax :
  aligned (monitor v) ->
  net_io_counters r = Some net -> last_net (monitor v) = Some lastn ->
  axes v = Some ax ->
  time_time r - start_time (monitor v) < duration (monitor v) ->
  exists m' d,
    update_plot G r v
    = (Return tt,
       {| monitor := m';
          axes := Some {| fig_open := fig_open ax; shown := Some d |} |}) /\
    collect_data G r (monitor v) = (Return tt, m') /\
    status_elapsed (ax_summary d) = time_time r - start_time (monitor v) /\
    status_elapsed (ax_summary d) + status_remaining (ax_summary d)
    == duration (monitor v) /\
    0 < status_remaining (ax_summary d) /\
    status_cpu (ax_summary d) = cpu_percent_now r /\
    status_memory (ax_summary d) = virtual_memory_percent r /\
    status_disk_read (ax_summary d) = last (disk_read m') 0 /\
    status_disk_write (ax_summary d) = last (disk_write m') 0 /\
    status_network_sent (ax_summary d) = delta_mb (bytes_sent net) (bytes_sent lastn) /\
    status_network_recv (ax_summary d) = delta_mb (bytes_recv net) (bytes_recv lastn).
Proof.
  intros Hal Hn Hl Hax Hlt.
  destruct (update_plot_redraws G r v Hal Hn Hl Hax Hlt)
    as (m' & d & Hrun & Happ & Hal' & Hne & Hd & Hup).
  destruct (redraw_shape G Hal' Hne)
    as (tr & tw & ts & tv & tt' & _ & _ & _ & _ & _ & Hd').
  rewrite Hd in Hd'. injection Hd' as ->.
  exists m'. eexists. split; [exact Hup|]. split; [exact Hrun|].
  cbn [ax_summary status_elapsed status_remaining status_cpu status_memory
       status_disk_read status_disk_write status_network_sent status_network_recv].
  assert (Hnew : last (timestamps m') 0 = time_time r - start_time (monitor v)).
  { rewrite (app_timestamps Happ), last_last. reflexivity. }
  rewrite Hnew, (app_duration Happ).
  rewrite (app_cpu_percent Happ), (app_memory_percent Happ),
    (app_network_sent Happ), (app_network_recv Happ), !last_last.
  split; [reflexivity|]. split; [ring|]. split.
  - unfold Qminus.
    rewrite <- (Qplus_opp_r (time_time r + - start_time (monitor v))).
    apply Qplus_lt_l. exact Hlt.
  - repeat split.
Qed.

Lemma update_plot_status_witness :
  exists m' d,
    update_plot false Run.tick1 (Scene.with_view Run.fresh)
    = (Return tt,
       {| monitor := m';
          axes := Some {| fig_open := true; shown := Some d |} |}) /\
    status_elapsed (ax_summary d) = 101 - 100 /\
    0 < status_remaining (ax_summary d).
Proof.
  assert (Hal : aligned (monitor (Scene.with_view Run.fresh))) by (repeat split).
  destruct (@update_plot_status false Run.tick1 (Scene.with_view Run.fresh)
              {| bytes_sent := 53 * Run.MiB; bytes_recv := 51 * Run.MiB |}
              {| bytes_sent := 50 * Run.MiB; bytes_recv := 50 * Run.MiB |}
              {| fig_open := true; shown := None |}
              Hal eq_refl eq_refl eq_refl)
    as (m' & d & Hup & _ & He & _ & Hpos & _).
  - vm_compute. reflexivity.
  - exists m', d. split; [exact Hup|]. split; [exact He | exact Hpos].
Defined.

(** X16: on a redraw the upper limits of the disk and network panels are
    1.2 times a base taken from the store: the base is 1 or a value of the
    two plotted columns, at least 1 and at least every value of the two
    columns, so [max] never raises, also on a single sample. *)
Theorem redraw_limits_cover_the_rates G r v net lastn ax :
  aligned (monitor v) ->
  net_io_counters r = Some net -> last_net (monitor v) = Some lastn ->
  axes v = Some ax ->
  time_time r - start_time (monitor v) < duration (monitor v) ->
  exists m' d base_disk base_net,
    update_plot G r v
    = (Return tt,
       {| monitor := m';
          axes := Some {| fig_open := fig_open ax; shown := Some d |} |}) /\
    ax_disk_io d =
      Curves (timestamps m') [disk_read m'; disk_write m']
        (Some (Scaled base_disk (12 # 10))) /\
    ax_network d =
      Curves (timestamps m') [network_sent m'; network_recv m']
        (Some (Scaled base_net (12 # 10))) /\
    In base_disk (1 :: disk_read m' ++ disk_write m') /\
    1 <= base_disk /\
    (forall x, In x (disk_read m' ++ disk_write m') -> x <= base_disk) /\
    In base_net (1 :: network_sent m' ++ network_recv m') /\
    1 <= base_net /\
    (forall x, In x (network_sent m' ++ network_recv m') -> x <= base_net).
Proof.
  intros Hal Hn Hl Hax Hlt.
  destruct (update_plot_redraws G r v Hal Hn Hl Hax Hlt)
    as (m' & d & Hrun & Happ & Hal' & Hne & Hd & Hup).
  destruct (redraw_shape G Hal' Hne)
    as (top_r & top_w & top_s & top_v & tt' & Hr & Hw & Hs & Hv & _ & Hd').
  rewrite Hd in Hd'. injection Hd' as ->.
  destruct (py_max_with_default (disk_read m') 1) as (x1 & Hr' & Hr1 & Hrall).
  destruct (py_max_with_default (disk_write m') 1) as (x2 & Hw' & Hw1 & Hwall).
  destruct (py_max_with_default (network_sent m') 1) as (x3 & Hs' & Hs1 & Hsall).
  destruct (py_max_with_default (network_recv m') 1) as (x4 & Hv' & Hv1 & Hvall).
  rewrite Hr in Hr'. rewrite Hw in Hw'. rewrite Hs in Hs'. rewrite Hv in Hv'.
  injection Hr' as <-. injection Hw' as <-. injection Hs' as <-. injection Hv' as <-.
  pose proof (py_max_with_default_in _ _ Hr) as Hrin.
  pose proof (py_max_with_default_in _ _ Hw) as Hwin.
  pose proof (py_max_with_default_in _ _ Hs) as Hsin.
  pose proof (py_max_with_default_in _ _ Hv) as Hvin.
  destruct (py_max2_ge top_r top_w) as [Hd1 Hd2].
  destruct (py_max2_ge top_s top_v) as [Hn1 Hn2].
  exists m'. eexists. exists (py_max2 top_r top_w), (py_max2 top_s top_v).
  split; [exact Hup|]. split; [reflexivity|]. split; [reflexivity|].
  assert (Hcons : forall (a : Q) (l l' : list Q) (y : Q),
            In y (a :: l) \/ In y (a :: l') -> In y (a :: l ++ l')).
  { intros a l l' y [[->|Hy]|[->|Hy]]; simpl; auto;
      right; apply in_or_app; auto. }
  split; [|split; [|split; [|split; [|split]]]].
  - apply Hcons. destruct (py_max2_cases top_r top_w) as [-> | ->]; auto.
  - apply Qle_trans with top_r; assumption.
  - intros x Hin. apply in_app_or in Hin. destruct Hin as [Hin|Hin].
    + apply Qle_trans with top_r; [exact (Hrall x Hin) | exact Hd1].
    + apply Qle_trans with top_w; [exact (Hwall x Hin) | exact Hd2].
  - apply Hcons. destruct (py_max2_cases top_s top_v) as [-> | ->]; auto.
  - apply Qle_trans with top_s; assumption.
  - intros x Hin. apply in_app_or in Hin. destruct Hin as [Hin|Hin].
    + apply Qle_trans with top_s; [exact (Hsall x Hin) | exact Hn1].
    + apply Qle_trans with top_v; [exact (Hvall x Hin) | exact Hn2].
Qed.

Lemma redraw_limits_cover_the_rates_witness :
  exists m' d base_disk,
    update_plot false Run.tick1 (Scene.with_view Run.fresh)
    = (Return tt,
       {| monitor := m';
          axes := Some {| fig_open := true; shown := Some d |} |}) /\
    ax_disk_io d =
      Curves (timestamps m') [disk_read m'; disk_write m']
        (Some (Scaled base_disk (12 # 10))) /\
    (forall x, In x (disk_read m' ++ disk_write m') -> x <= base_disk).
Proof.
  assert (Hal : aligned (monitor (Scene.with_view Run.fresh))) by (repeat split).
  destruct (@redraw_limits_cover_the_rates false Run.tick1
              (Scene.with_view Run.fresh)
              {| bytes_sent := 53 * Run.MiB; bytes_recv := 51 * Run.MiB |}
              {| bytes_sent := 50 * Run.MiB; bytes_recv := 50 * Run.MiB |}
              {| fig_open := true; shown := None |}
              Hal eq_refl eq_refl eq_refl)
    as (m' & d & base_disk & base_net & Hup & Hdisk & _ & _ & _ & Hall & _).
  - vm_compute. reflexivity.
  - exists m', d, base_disk. split; [exact Hup|]. split; [exact Hdisk | exact Hall].
Defined.

(** X17: on a redraw the CPU temperature panel shows the not-available
    text exactly when no collected temperature is above 0, and the GPU
    panel exactly when GPU support is missing or no collected utilisation
    is above 0; one positive value anywhere in the store brings the curves
    back, whatever the latest sample holds. *)
Theorem redraw_placeholders G r v net lastn ax :
  aligned (monitor v) ->
  net_io_counters r = Some net -> last_net (monitor v) = Some lastn ->
  axes v = Some ax ->
  time_time r - start_time (monitor v) < duration (monitor v) ->
  exists m' d,
    update_plot G r v
    = (Return tt,
       {| monitor := m';
          axes := Some {| fig_open := fig_open ax; shown := Some d |} |}) /\
    (ax_cpu_temp d = Placeholder ["Temperature"; "Not Available"]%string <->
     forall t, In t (cpu_temp m') -> t <= 0) /\
    (ax_gpu d = Placeholder ["GPU"; "Not Available"]%string <->
     G = false \/ forall g, In g (gpu_util m') -> g <= 0).
Proof.
  intros Hal Hn Hl Hax Hlt.
  destruct (update_plot_redraws G r v Hal Hn Hl Hax Hlt)
    as (m' & d & Hrun & Happ & Hal' & Hne & Hd & Hup).
  destruct (redraw_shape G Hal' Hne)
    as (tr & tw & ts & tv & tt' & _ & _ & _ & _ & _ & Hd').
  rewrite Hd in Hd'. injection Hd' as ->.
  exists m'. eexists. split; [exact Hup|].
  cbn [ax_cpu_temp ax_gpu].
  assert (Hnone : forall column,
            any_positive column = false <-> forall t, In t column -> t <= 0).
  { intros column. split.
    - intros E t Hin. apply Qnot_lt_le. intros Hpos.
      assert (any_positive column = true)
        by (apply any_positive_iff; exists t; split; assumption).
      congruence.
    - intros Hall. destruct (any_positive column) eqn:E; [|reflexivity].
      apply any_positive_iff in E. destruct E as (t & Hin & Hpos).
      exfalso. exact (Qlt_not_le _ _ Hpos (Hall t Hin)). }
  split.
  - rewrite <- Hnone. destruct (any_positive (cpu_temp m')); split;
      intros; try reflexivity; discriminate.
  - rewrite <- Hnone. destruct G; destruct (any_positive (gpu_util m')); simpl;
      split; intros H; try reflexivity; try discriminate; auto;
      destruct H; discriminate.
Qed.

Lemma redraw_placeholders_witness :
  exists m' d,
    update_plot false Run.tick1 (Scene.with_view Run.fresh)
    = (Return tt,
       {| monitor := m';
          axes := Some {| fig_open := true; shown := Some d |} |}) /\
    ax_gpu d = Placeholder ["GPU"; "Not Available"]%string.
Proof.
  assert (Hal : aligned (monitor (Scene.with_view Run.fresh))) by (repeat split).
  destruct (@redraw_placeholders false Run.tick1 (Scene.with_view Run.fresh)
              {| bytes_sent := 53 * Run.MiB; bytes_recv := 51 * Run.MiB |}
              {| bytes_sent := 50 * Run.MiB; bytes_recv := 50 * Run.MiB |}
              {| fig_open := true; shown := None |}
              Hal eq_refl eq_refl eq_refl)
    as (m' & d & Hup & _ & Hgpu).
  - vm_compute. reflexivity.
  - exists m', d. split; [exact Hup|]. apply Hgpu. left. reflexivity.
Defined.

(** ** A whole run *)

(** X18: a run of [start] that collects at least one sample and is ended
    by the duration, in a directory where both files can be written,
    returns normally; the report file then holds the summary and detailed
    tables of exactly the samples collected, and no chart image is left. *)
Theorem completed_run_leaves_the_report G sqrt writable t0 ticks now r rest self w :
  ticks <> [] ->
  Forall (within t0 (duration self)) ticks ->
  Forall with_network ticks ->
  last_net self <> None ->
  aligned self ->
  duration self <= now - t0 ->
  writable graph_file = true ->
  writable "system_monitor_report.pdf"%string = true ->
  exists self' w' rows detail,
    start G sqrt writable t0 (ticks ++ Tick now r :: rest) self w
    = Some (Return tt, self', w') /\
    List.length (timestamps self')
    = (List.length (timestamps self) + List.length ticks)%nat /\
    summary_data G sqrt self' = Return rows /\
    detailed_data self' = Return detail /\
    read_file "system_monitor_report.pdf" w' = Some (Document rows detail) /\
    read_file graph_file w' = None.
Proof.
  intros Hticks Hin Hnet Hlast Hal Hge Hg Hf.
  destruct (@data_collection_loop_ticks G t0 ticks self Hin Hnet (fun _ => Hlast))
    as (m1 & Hrest & Hlen & Hdur & Hal1).
  assert (Hne : timestamps m1 <> []).
  { intros E. rewrite E in Hlen. destruct ticks; [congruence | simpl in Hlen; lia]. }
  assert (Hdiff : "system_monitor_report.pdf"%string <> graph_file) by discriminate.
  destruct (generate_pdf_report_success G sqrt writable
              (say "Data collection complete!" (announce w))
              (Hal1 Hal) Hne Hg Hf Hdiff)
    as (rows & detail & Hrows & Hdet & Hrun).
  exists m1. eexists. exists rows, detail.
  split; [|split; [exact Hlen | split; [exact Hrows | split; [exact Hdet|]]]].
  - unfold start. rewrite Hrest. simpl data_collection_loop.
    unfold bind, get, ret. rewrite Hdur, (Qlt_bool_false Hge). cbv zeta.
    destruct (List.length (timestamps m1)) as [|n] eqn:En;
      [destruct (timestamps m1); [congruence | discriminate]|].
    change (0 <? S n)%nat with true. cbv iota. rewrite Hrun. reflexivity.
  - assert (Hsay : forall name line w0,
              read_file name (say line w0) = read_file name w0) by reflexivity.
    rewrite Hsay. split.
    + rewrite (read_file_removed_other _ Hdiff). apply read_file_written.
    + apply read_file_removed.
Qed.

Lemma completed_run_leaves_the_report_witness :
  exists self' w' rows detail,
    start false (fun v => v) Run.all_writable 100 Scene.full_run Run.fresh
      Run.empty_world = Some (Return tt, self', w') /\
    List.length (timestamps self') = 3%nat /\
    read_file "system_monitor_report.pdf" w' = Some (Document rows detail) /\
    read_file graph_file w' = None.
Proof.
  assert (Hal : aligned Run.fresh) by (repeat split).
  destruct (@completed_run_leaves_the_report false (fun v => v) Run.all_writable 100
              Scene.three_ticks 220 (Run.nth_tick 120) [] Run.fresh Run.empty_world)
    as (self' & w' & rows & detail & Hrun & Hlen & _ & _ & Hdoc & Hgone).
  - discriminate.
  - repeat constructor.
  - repeat constructor; discriminate.
  - discriminate.
  - exact Hal.
  - vm_compute. discriminate.
  - reflexivity.
  - reflexivity.
  - exists self', w', rows, detail.
    split; [exact Hrun|]. split; [exact Hlen|]. split; [exact Hdoc | exact Hgone].
Defined.

